(** * The vLLM inference adapter
    (llama_stack/providers/adapters/inference/vllm/vllm.py)

    A shallow embedding of [VLLMInferenceAdapter]: the adapter object and
    the outside world (the calls made to the OpenAI-compatible backend and
    the lines printed) are threaded explicitly, Python exceptions are values
    of [exn], dictionaries are [gmap]s with string keys. *)

From Stdlib Require Import ZArith List.
From stdpp Require Import base option list strings gmap fin_maps.

Local Open Scope string_scope.
Local Open Scope list_scope.

(** ** Python values and exceptions *)

(** Values stored in the keyword dictionary handed to
    [client.completions.create].  A float is kept as its
    binary64 bit pattern: the adapter only carries floats around. *)
Inductive PyVal : Type :=
  | PyNone
  | PyBool (b : bool)
  | PyInt (n : Z)
  | PyFloat (bits : Z)
  | PyStr (s : string).

(** [Optional[str]] and [Optional[bool]] as dictionary values. *)
Definition py_opt_str (o : option string) : PyVal :=
  match o with Some s => PyStr s | None => PyNone end.

Definition py_opt_bool (o : option bool) : PyVal :=
  match o with Some b => PyBool b | None => PyNone end.

(** Truthiness, as [if x:] / [x or y] evaluate it. *)
Definition truthy_str (o : option string) : bool :=
  match o with
  | Some s => negb (String.eqb s "")
  | None => false
  end.

Definition truthy_bool (o : option bool) : bool :=
  match o with Some b => b | None => false end.

(** The exceptions that can leave the adapter.  [ForeignError] stands for
    whatever a collaborator (the OpenAI client, the response decoders)
    raises; the other three are raised by the adapter's own code or by the
    interpreter on [None.attr]. *)
Inductive exn : Type :=
  | ValueError (msg : string)
  | NotImplementedError
  | AttributeError (msg : string)
  | ForeignError (cls msg : string).

(** The error taxonomy of the design (section 7), read off the exceptions:
    [ValueError("Unknown model: ...")] is the unknown-model failure, the
    registration [ValueError] and [NotImplementedError] are the
    unsupported-operation failures, a collaborator's exception is a backend
    error.  The adapter has no exception of its own for use before
    [initialize()]: [None.models] and [None.completions] raise the
    interpreter's [AttributeError], which the taxonomy does not list. *)
Inductive ErrorKind : Type :=
  | NotInitialized
  | UnknownModel
  | UnsupportedOperation
  | BackendError.

Definition registration_unsupported_msg : string :=
  "Model registration is not supported for vLLM models".

Definition unknown_model_prefix : string := "Unknown model: ".

Definition error_kind (e : exn) : option ErrorKind :=
  match e with
  | ValueError msg =>
      if String.prefix unknown_model_prefix msg then Some UnknownModel
      else if String.eqb msg registration_unsupported_msg
           then Some UnsupportedOperation
           else None
  | NotImplementedError => Some UnsupportedOperation
  | AttributeError _ => None
  | ForeignError _ _ => Some BackendError
  end.

(** ** Data model *)

(** [llama_models.sku_list.Model], as far as the adapter reads it:
    [model.descriptor()] and [model.huggingface_repo] (an [Optional[str]]). *)
Record Model : Type := {
  descriptor : string;
  huggingface_repo : option string
}.

(** [ModelDef(identifier=..., llama_model=...)]. *)
Record ModelDef : Type := {
  identifier : string;
  llama_model : string
}.

(** [VLLMInferenceAdapterConfig]: the three fields the adapter reads. *)
Record VLLMInferenceAdapterConfig : Type := {
  url : string;
  api_token : string;
  max_tokens : Z
}.

(** [OpenAI(base_url=..., api_key=...)]: the bound transport handle. *)
Record OpenAI : Type := {
  base_url : string;
  api_key : string
}.

(** What reaches the backend: [client.models.list()] and
    [client.completions.create] with its keyword dictionary. *)
Inductive Call : Type :=
  | ModelsList (c : OpenAI)
  | CompletionsCreate (c : OpenAI) (params : gmap string PyVal).

(** Modelled from the spec: the backend's partial payload, whose class is
    declared in the openai package ("Chunk: one incremental unit of a
    streamed completion, carrying a text delta and optional finish-reason
    signal"). *)
Inductive FinishSignal : Type :=
  | LengthLimit
  | StopBoundary.

Record CompletionChunk : Type := {
  chunk_text : string;
  chunk_finish_reason : option FinishSignal
}.

(** Modelled from the spec: the finish reasons of the glossary ("length
    limit vs. natural/stop-token boundary vs. incomplete"); the class is
    declared in llama_stack.apis.inference, outside the adapter's file. *)
Inductive FinishReason : Type :=
  | OutOfTokens
  | EndOfTurn
  | Incomplete.

(** Modelled from the spec: [CompletionResponseStreamChunk] ("incremental
    delta, in-progress/terminal marker"), declared in
    llama_stack.apis.inference. *)
Inductive Marker : Type :=
  | InProgress
  | Terminal (reason : FinishReason).

Record ChatCompletionResponseStreamChunk : Type := {
  delta : string;
  marker : Marker
}.

Definition is_terminal (c : ChatCompletionResponseStreamChunk) : bool :=
  match marker c with
  | Terminal _ => true
  | InProgress => false
  end.

(** A sequence that is pulled to its end: the elements yielded, in order,
    and the exception that ended the iteration, if one did. *)
Definition Pulled (A : Type) : Type := (list A * option exn)%type.

(** The types of llama_stack.apis.inference and llama_models that the
    adapter passes through without looking inside. *)
Class ApiTypes : Type := {
  SamplingParams : Type;
  Message : Type;
  ToolDefinition : Type;
  ToolChoice : Type;
  ToolPromptFormat : Type;
  ResponseFormat : Type;
  LogProbConfig : Type;
  InterleavedTextMedia : Type;
  CompletionResponse : Type;
  EmbeddingsResponse : Type;
  ChatFormat : Type;
  (** what [client.completions.create] returns *)
  Completions : Type;
  ChatCompletionResponse : Type
}.

Section DataModel.
Context {T : ApiTypes}.

(** [ChatCompletionRequest], with the fields [chat_completion] sets. *)
Record ChatCompletionRequest : Type := {
  model : string;
  messages : list Message;
  sampling_params : option SamplingParams;
  tools : list ToolDefinition;
  tool_choice : option ToolChoice;
  tool_prompt_format : option ToolPromptFormat;
  stream : option bool;
  logprobs : option LogProbConfig
}.

(** The adapter object: [self.config], [self.formatter], [self.client]
    and [self.huggingface_repo_to_llama_model_id]. *)
Record VLLMInferenceAdapter : Type := {
  config : VLLMInferenceAdapterConfig;
  formatter : ChatFormat;
  client : option OpenAI;
  huggingface_repo_to_llama_model_id : gmap string string
}.

(** The adapter object together with the world around it: the calls the
    backend has received, oldest first, and the lines printed. *)
Record Sys : Type := {
  adapter : VLLMInferenceAdapter;
  calls : list Call;
  stdout : list string
}.

(** The generator object [self._stream_chat_completion(request, client)]
    before its first pull: its body has not run, its two arguments are
    already evaluated. *)
Record AsyncGenerator : Type := {
  gen_request : ChatCompletionRequest;
  gen_client : option OpenAI
}.

(** What [chat_completion] hands back. *)
Inductive ChatResult : Type :=
  | Response (r : ChatCompletionResponse)
  | Streaming (g : AsyncGenerator).

End DataModel.

Arguments ChatCompletionRequest {_}.
Arguments VLLMInferenceAdapter {_}.
Arguments Sys {_}.
Arguments AsyncGenerator {_}.
Arguments ChatResult {_}.

(** The collaborators the adapter imports: the model catalogue of
    llama_models.sku_list, the helpers of
    llama_stack.providers.utils.inference, the tokenizer-backed formatter,
    and the backend behind the OpenAI client.  The backend's answer may
    depend on the calls it has already served. *)
Class Collaborators {T : ApiTypes} : Type := {
  all_registered_models : list Model;
  resolve_model : string -> option Model;
  get_sampling_options : option SamplingParams -> gmap string PyVal;
  chat_completion_request_to_prompt :
    ChatCompletionRequest -> ChatFormat -> string;
  process_chat_completion_response :
    Completions -> ChatFormat -> exn + ChatCompletionResponse;
  process_chat_completion_stream_response :
    Pulled CompletionChunk -> ChatFormat ->
    Pulled ChatCompletionResponseStreamChunk;
  (** [ChatFormat(Tokenizer.get_instance())] *)
  new_formatter : ChatFormat;
  backend_models_list : OpenAI -> list Call -> exn + list string;
  backend_completions_create :
    OpenAI -> list Call -> gmap string PyVal -> exn + Completions;
  (** iterating the object [create] returned: [for chunk in s] *)
  iterate : Completions -> Pulled CompletionChunk
}.

(** ** Effects: state and exceptions *)

Section Effects.
Context {T : ApiTypes}.

Definition M (A : Type) : Type := Sys -> (exn + A) * Sys.

Definition ret {A : Type} (a : A) : M A := fun s => (inr a, s).

Definition raise {A : Type} (e : exn) : M A := fun s => (inl e, s).

Definition bind {A B : Type} (m : M A) (k : A -> M B) : M B :=
  fun s =>
    match m s with
    | (inr a, s') => k a s'
    | (inl e, s') => (inl e, s')
    end.

(** A call that may raise, inside a method. *)
Definition lift {A : Type} (r : exn + A) : M A := fun s => (r, s).

Definition get_self : M VLLMInferenceAdapter :=
  fun s => (inr (adapter s), s).

(** [self.client = c] *)
Definition set_client (c : option OpenAI) : M unit :=
  fun s =>
    let a := adapter s in
    (inr tt,
     {| adapter := {| config := config a;
                      formatter := formatter a;
                      client := c;
                      huggingface_repo_to_llama_model_id :=
                        huggingface_repo_to_llama_model_id a |};
        calls := calls s;
        stdout := stdout s |}).

Definition print (line : string) : M unit :=
  fun s =>
    (inr tt,
     {| adapter := adapter s;
        calls := calls s;
        stdout := stdout s ++ [line] |}).

(** Recording a call the backend receives. *)
Definition record_call (c : Call) (s : Sys) : Sys :=
  {| adapter := adapter s;
     calls := calls s ++ [c];
     stdout := stdout s |}.

End Effects.

(** The two instances give [M] stdpp's monad notation:
    [x ← m; k] and [m;; k]. *)
#[global] Instance M_ret {T : ApiTypes} : MRet M := @ret T.
#[global] Instance M_bind {T : ApiTypes} : MBind M :=
  fun A B k m => bind m k.

(** ** The adapter *)

Section Adapter.
Context {T : ApiTypes} {D : Collaborators}.

(** The dictionary comprehension of [__init__]:
    [{m.huggingface_repo: m.descriptor() for m in ... if m.huggingface_repo}].
    Entries are written in catalogue order, so a later model overwrites an
    earlier one that has the same repository. *)
Definition repo_table_add (table : gmap string string) (m : Model)
  : gmap string string :=
  match huggingface_repo m with
  | Some repo =>
      if truthy_str (Some repo) then <[repo := descriptor m]> table
      else table
  | None => table
  end.

Definition repo_table (catalogue : list Model) : gmap string string :=
  fold_left repo_table_add catalogue ∅.

Definition __init__ (cfg : VLLMInferenceAdapterConfig) : VLLMInferenceAdapter :=
  {| config := cfg;
     formatter := new_formatter;
     client := None;
     huggingface_repo_to_llama_model_id := repo_table all_registered_models |}.

Definition initialize : M unit :=
  self ← get_self;
  set_client (Some {| base_url := url (config self);
                      api_key := api_token (config self) |}).

Definition register_model (model : ModelDef) : M unit :=
  raise (ValueError registration_unsupported_msg).

Definition shutdown : M unit := ret tt.

(** [None.models] and [None.completions]. *)
Definition none_has_no_attribute (attr : string) : exn :=
  AttributeError ("'NoneType' object has no attribute '" +:+ attr +:+ "'").

(** [client.models.list()], and the [model.id] of what it returns. *)
Definition models_list (c : OpenAI) : M (list string) :=
  fun s => (backend_models_list c (calls s), record_call (ModelsList c) s).

(** [client.completions.create(...)] with the keyword dictionary. *)
Definition completions_create (c : OpenAI) (params : gmap string PyVal)
  : M Completions :=
  fun s => (backend_completions_create c (calls s) params,
            record_call (CompletionsCreate c params) s).

(** The non-failing lookup of [list_models]:
    [repo in self.huggingface_repo_to_llama_model_id] and the subscript. *)
Definition resolve_canonical_id (self : VLLMInferenceAdapter) (repo : string)
  : option string :=
  huggingface_repo_to_llama_model_id self !! repo.

(** The body of the [for] loop of [list_models], over the identifiers the
    backend reported. *)
Fixpoint list_models_loop (self : VLLMInferenceAdapter) (page : list string)
    (models : list ModelDef) : M (list ModelDef) :=
  match page with
  | [] => ret models
  | repo :: rest =>
      match resolve_canonical_id self repo with
      | None =>
          print ("Unknown model served by vllm: " +:+ repo);;
          list_models_loop self rest models
      | Some identifier =>
          list_models_loop self rest
            (models ++ [{| identifier := identifier;
                           llama_model := identifier |}])
      end
  end.

Definition list_models : M (list ModelDef) :=
  self ← get_self;
  match client self with
  | None => raise (none_has_no_attribute "models")
  | Some c =>
      page ← models_list c;
      list_models_loop self page []
  end.

Definition completion (model : string) (content : InterleavedTextMedia)
    (sampling_params : option SamplingParams)
    (response_format : option ResponseFormat)
    (stream : option bool) (logprobs : option LogProbConfig)
  : M CompletionResponse :=
  raise NotImplementedError.

Definition embeddings (model : string) (contents : list InterleavedTextMedia)
  : M EmbeddingsResponse :=
  raise NotImplementedError.

(** Lines 135-137 and 140 of [_get_params]: the canonical identifier is
    resolved through the catalogue, and the backend is addressed by the
    resolved model's [huggingface_repo]. *)
Definition resolve_backend_id (canonical_id : string) : exn + option string :=
  match resolve_model canonical_id with
  | None => inl (ValueError (unknown_model_prefix +:+ canonical_id))
  | Some m => inr (huggingface_repo m)
  end.

(** Lines 131-133 of [_get_params]: the sampling options, with the
    configured ceiling written in when the key is missing. *)
Definition options_with_max_tokens (self : VLLMInferenceAdapter)
    (request : ChatCompletionRequest) : gmap string PyVal :=
  let options := get_sampling_options (sampling_params request) in
  match options !! "max_tokens" with
  | Some _ => options
  | None => <["max_tokens" := PyInt (max_tokens (config self))]> options
  end.

(** [_get_params].  In the dictionary display the three fixed keys come
    first and the options are unpacked after them, so an option with one of
    those names would replace it: the union is biased to the options. *)
Definition _get_params (self : VLLMInferenceAdapter)
    (request : ChatCompletionRequest) : exn + gmap string PyVal :=
  let options := options_with_max_tokens self request in
  match resolve_backend_id (model request) with
  | inl e => inl e
  | inr repo =>
      inr (options ∪
           <["model" := py_opt_str repo]>
           (<["prompt" := PyStr (chat_completion_request_to_prompt
                                   request (formatter self))]>
           (<["stream" := py_opt_bool (stream request)]> ∅)))
  end.

(** [client.completions] on a client that may still be [None]. *)
Definition the_completions (client : option OpenAI) : M OpenAI :=
  match client with
  | Some c => ret c
  | None => raise (none_has_no_attribute "completions")
  end.

Definition _nonstream_chat_completion (request : ChatCompletionRequest)
    (client : option OpenAI) : M ChatCompletionResponse :=
  self ← get_self;
  params ← lift (_get_params self request);
  c ← the_completions client;
  r ← completions_create c params;
  lift (process_chat_completion_response r (formatter self)).

(** The inner generator [_to_async_generator()], pulled to its end: the
    call to [create] and then the backend's chunks. *)
Definition _to_async_generator (client : option OpenAI)
    (params : gmap string PyVal) (s : Sys)
  : Pulled CompletionChunk * Sys :=
  match client with
  | None => (([], Some (none_has_no_attribute "completions")), s)
  | Some c =>
      match completions_create c params s with
      | (inr r, s') => (iterate r, s')
      | (inl e, s') => (([], Some e), s')
      end
  end.

(** The body of [_stream_chat_completion], run by the consumer's pulls:
    the parameters are built first, [create] is called when the decoder
    first pulls the inner generator, and every chunk the decoder yields is
    yielded on, in order. *)
Definition _stream_chat_completion (request : ChatCompletionRequest)
    (client : option OpenAI) (s : Sys)
  : Pulled ChatCompletionResponseStreamChunk * Sys :=
  let self := adapter s in
  match _get_params self request with
  | inl e => (([], Some e), s)
  | inr params =>
      let '(raw, s') := _to_async_generator client params s in
      (process_chat_completion_stream_response raw (formatter self), s')
  end.

(** [async for chunk in g]: what pulling a generator object to its end
    yields. *)
Definition async_for (g : AsyncGenerator) (s : Sys)
  : Pulled ChatCompletionResponseStreamChunk * Sys :=
  _stream_chat_completion (gen_request g) (gen_client g) s.

(** [tools or []] *)
Definition or_empty {A : Type} (o : option (list A)) : list A :=
  match o with
  | Some (x :: l) => x :: l
  | Some [] => []
  | None => []
  end.

(** The [ChatCompletionRequest(...)] expression of [chat_completion];
    [response_format] is accepted and not passed on. *)
Definition build_request (model : string) (messages : list Message)
    (sampling_params : option SamplingParams)
    (response_format : option ResponseFormat)
    (tools : option (list ToolDefinition))
    (tool_choice : option ToolChoice)
    (tool_prompt_format : option ToolPromptFormat)
    (stream : option bool) (logprobs : option LogProbConfig)
  : ChatCompletionRequest :=
  {| model := model;
     messages := messages;
     sampling_params := sampling_params;
     tools := or_empty tools;
     tool_choice := tool_choice;
     tool_prompt_format := tool_prompt_format;
     stream := stream;
     logprobs := logprobs |}.

Definition chat_completion (model : string) (messages : list Message)
    (sampling_params : option SamplingParams)
    (response_format : option ResponseFormat)
    (tools : option (list ToolDefinition))
    (tool_choice : option ToolChoice)
    (tool_prompt_format : option ToolPromptFormat)
    (stream : option bool) (logprobs : option LogProbConfig)
  : M ChatResult :=
  let request :=
    build_request model messages sampling_params response_format tools
                  tool_choice tool_prompt_format stream logprobs in
  self ← get_self;
  if truthy_bool stream then
    ret (Streaming {| gen_request := request; gen_client := client self |})
  else
    r ← _nonstream_chat_completion request (client self);
    ret (Response r).

End Adapter.

(** What [list_models] is to return for the identifiers the backend
    reported: one [ModelDef] for each identifier the table knows, in the
    order reported, and nothing for the others. *)
Definition descriptors_of {T : ApiTypes} (self : VLLMInferenceAdapter)
    (reported : list string) : list ModelDef :=
  omap (fun repo =>
          match huggingface_repo_to_llama_model_id self !! repo with
          | Some identifier =>
              Some {| identifier := identifier; llama_model := identifier |}
          | None => None
          end) reported.

(** The lines [list_models] prints on the way: one for each reported
    identifier the table does not know. *)
Definition unknown_notices {T : ApiTypes} (self : VLLMInferenceAdapter)
    (reported : list string) : list string :=
  omap (fun repo =>
          match huggingface_repo_to_llama_model_id self !! repo with
          | Some _ => None
          | None => Some ("Unknown model served by vllm: " +:+ repo)
          end) reported.

(** ** The stream decoder of the design *)

Section Decoder.
Context {T : ApiTypes}.

Definition classify_finish (signal : FinishSignal) : FinishReason :=
  match signal with
  | LengthLimit => OutOfTokens
  | StopBoundary => EndOfTurn
  end.

Definition progress_chunk (c : CompletionChunk)
  : ChatCompletionResponseStreamChunk :=
  {| delta := chunk_text c; marker := InProgress |}.

Definition terminal_chunk (c : CompletionChunk) (signal : FinishSignal)
  : ChatCompletionResponseStreamChunk :=
  {| delta := chunk_text c; marker := Terminal (classify_finish signal) |}.

(** The terminal chunk made up when the backend stops without a signal. *)
Definition synthesized_terminal : ChatCompletionResponseStreamChunk :=
  {| delta := ""; marker := Terminal Incomplete |}.

(** Modelled from the spec: [process_chat_completion_stream_response] of
    llama_stack.providers.utils.inference.openai_compat, which is not in the
    adapter's file.  Section 4.3 ([normalize_stream]): the partial payloads
    are consumed in order and each is re-emitted as a normalized delta, in
    one pass; the chunk in which the backend signals completion is emitted
    as the terminal chunk, with the finish reason classified, and ends the
    sequence; when the underlying sequence ends without such a signal a
    terminal chunk marking the generation as incomplete is synthesized; a
    backend failure in mid-stream ends the produced sequence with that
    error, the chunks emitted before it standing.  The running state of the
    design (accumulated text, tokenizer state) only feeds the decoding of
    the text, which is left as it is here. *)
Fixpoint normalize_chunks (raw : list CompletionChunk) (failure : option exn)
  : Pulled ChatCompletionResponseStreamChunk :=
  match raw with
  | [] =>
      match failure with
      | Some e => ([], Some e)
      | None => ([synthesized_terminal], None)
      end
  | c :: rest =>
      match chunk_finish_reason c with
      | Some signal => ([terminal_chunk c signal], None)
      | None =>
          let '(out, e) := normalize_chunks rest failure in
          (progress_chunk c :: out, e)
      end
  end.

Definition normalize_stream (raw : Pulled CompletionChunk) (f : ChatFormat)
  : Pulled ChatCompletionResponseStreamChunk :=
  normalize_chunks (fst raw) (snd raw).

(** The backend chunks the decoder reads: those before the first finish
    signal. *)
Fixpoint before_signal (raw : list CompletionChunk) : list CompletionChunk :=
  match raw with
  | [] => []
  | c :: rest =>
      match chunk_finish_reason c with
      | Some _ => []
      | None => c :: before_signal rest
      end
  end.

(** The first chunk that carries a finish signal, if there is one. *)
Fixpoint first_signal (raw : list CompletionChunk)
  : option (CompletionChunk * FinishSignal) :=
  match raw with
  | [] => None
  | c :: rest =>
      match chunk_finish_reason c with
      | Some signal => Some (c, signal)
      | None => first_signal rest
      end
  end.

(** The last chunk of a produced sequence: the backend's signalling chunk
    when there is one, the synthesized terminal chunk otherwise. *)
Definition closing_chunk (raw : list CompletionChunk)
  : ChatCompletionResponseStreamChunk :=
  match first_signal raw with
  | Some (c, signal) => terminal_chunk c signal
  | None => synthesized_terminal
  end.

End Decoder.

(** A produced sequence ends well when it is some in-progress chunks
    followed by one terminal chunk. *)
Definition well_terminated (out : list ChatCompletionResponseStreamChunk)
  : Prop :=
  exists init last,
    out = init ++ [last] /\
    is_terminal last = true /\
    Forall (fun c => is_terminal c = false) init.

(** Each backend repository identifier names one canonical identifier. *)
Definition unique_backend_repo (catalogue : list Model) : Prop :=
  forall m1 m2,
    In m1 catalogue -> In m2 catalogue ->
    huggingface_repo m1 = huggingface_repo m2 ->
    descriptor m1 = descriptor m2.

(** [shutdown()] called [n] times in a row. *)
Fixpoint shutdown_times {T : ApiTypes} {D : Collaborators} (n : nat) : M unit :=
  match n with
  | O => ret tt
  | S k => shutdown;; shutdown_times k
  end.

(** ** A fabricated catalogue and backend

    One instance of the collaborators, small enough to run: two catalogue
    models, a backend that serves one of them next to a model the catalogue
    does not know, and a completion of three chunks. *)

Module Fabricated.

(** The sampling parameters are reduced to the explicit max-token bound. *)
#[export] Instance api : ApiTypes := {|
  SamplingParams := option Z;
  Message := (string * string)%type;
  ToolDefinition := string;
  ToolChoice := unit;
  ToolPromptFormat := unit;
  ResponseFormat := unit;
  LogProbConfig := unit;
  InterleavedTextMedia := string;
  CompletionResponse := string;
  EmbeddingsResponse := unit;
  ChatFormat := unit;
  Completions := (string * list CompletionChunk)%type;
  ChatCompletionResponse := string
|}.

Definition catalogue : list Model :=
  [ {| descriptor := "llama3-8b"; huggingface_repo := Some "org/llama-3-8b" |};
    {| descriptor := "llama3-70b"; huggingface_repo := Some "org/llama-3-70b" |};
    {| descriptor := "llama3-draft"; huggingface_repo := None |} ].

Definition names (d : string) (m : Model) : bool :=
  String.eqb d (descriptor m)
  || match huggingface_repo m with
     | Some repo => String.eqb d repo
     | None => false
     end.

Definition lookup_model (d : string) : option Model :=
  find (names d) catalogue.

Definition sampling_options (sp : option SamplingParams)
  : gmap string PyVal :=
  match sp with
  | Some (Some n) => {[ "max_tokens" := PyInt n ]}
  | Some None => ∅
  | None => ∅
  end.

Definition prompt_of (request : ChatCompletionRequest) (f : ChatFormat)
  : string :=
  String.concat "|" (map snd (messages request)).

Definition served : list string := ["org/llama-3-8b"; "org/unknown-model"].

Definition reply : Completions :=
  ("hello",
   [ {| chunk_text := "he"; chunk_finish_reason := None |};
     {| chunk_text := "llo"; chunk_finish_reason := None |};
     {| chunk_text := ""; chunk_finish_reason := Some StopBoundary |} ]).

#[export] Instance collaborators : Collaborators := {|
  all_registered_models := catalogue;
  resolve_model := lookup_model;
  get_sampling_options := sampling_options;
  chat_completion_request_to_prompt := prompt_of;
  process_chat_completion_response := fun r _ => inr (fst r);
  process_chat_completion_stream_response := normalize_stream;
  new_formatter := tt;
  backend_models_list := fun _ _ => inr served;
  backend_completions_create := fun _ _ _ => inr reply;
  iterate := fun r => (snd r, None)
|}.

Definition cfg : VLLMInferenceAdapterConfig :=
  {| url := "http://localhost:8000/v1"; api_token := "fake"; max_tokens := 4096 |}.

(** A fresh adapter in an untouched world, and the same after
    [initialize()]. *)
Definition fresh : Sys :=
  {| adapter := __init__ cfg; calls := []; stdout := [] |}.

Definition ready : Sys := snd (initialize fresh).

Definition handle : OpenAI :=
  {| base_url := "http://localhost:8000/v1"; api_key := "fake" |}.

Definition hi : list Message := [("user", "hi")].

End Fabricated.

(** ** A backend that cannot be reached

    The fabricated catalogue and helpers again, with a backend that raises
    on every call and a catalogue in which two models share a repository. *)

Module Unreachable.

Definition connection_error : exn :=
  ForeignError "APIConnectionError" "Connection error.".

Definition collaborators : @Collaborators Fabricated.api := {|
  all_registered_models := Fabricated.catalogue;
  resolve_model := Fabricated.lookup_model;
  get_sampling_options := Fabricated.sampling_options;
  chat_completion_request_to_prompt := Fabricated.prompt_of;
  process_chat_completion_response := fun r _ => inr (fst r);
  process_chat_completion_stream_response := normalize_stream;
  new_formatter := tt;
  backend_models_list := fun _ _ => inl connection_error;
  backend_completions_create := fun _ _ _ => inl connection_error;
  iterate := fun r => (snd r, None)
|}.

(** The adapter of this world, initialized. *)
Definition ready : Sys :=
  snd (@initialize Fabricated.api
         {| adapter := @__init__ Fabricated.api collaborators Fabricated.cfg;
            calls := [];
            stdout := [] |}).

(** Two models of one repository, between two others. *)
Definition shared : list Model :=
  [ {| descriptor := "llama3-8b"; huggingface_repo := Some "org/llama-3-8b" |};
    {| descriptor := "llama3-405b"; huggingface_repo := Some "org/llama-3-405b" |};
    {| descriptor := "llama3-405b:mp16";
       huggingface_repo := Some "org/llama-3-405b" |};
    {| descriptor := "llama3-draft"; huggingface_repo := None |} ].

End Unreachable.

(** ** A catalogue with a shared repository

    The fabricated helpers and backend again, over the catalogue in which
    the two variants of one model name the same repository. *)

Module Shared.

Definition lookup_model (d : string) : option Model :=
  find (Fabricated.names d) Unreachable.shared.

Definition collaborators : @Collaborators Fabricated.api := {|
  all_registered_models := Unreachable.shared;
  resolve_model := lookup_model;
  get_sampling_options := Fabricated.sampling_options;
  chat_completion_request_to_prompt := Fabricated.prompt_of;
  process_chat_completion_response := fun r _ => inr (fst r);
  process_chat_completion_stream_response := normalize_stream;
  new_formatter := tt;
  backend_models_list := fun _ _ => inr Fabricated.served;
  backend_completions_create := fun _ _ _ => inr Fabricated.reply;
  iterate := fun r => (snd r, None)
|}.

Definition llama3_8b : Model :=
  {| descriptor := "llama3-8b"; huggingface_repo := Some "org/llama-3-8b" |}.

Definition llama3_405b : Model :=
  {| descriptor := "llama3-405b"; huggingface_repo := Some "org/llama-3-405b" |}.

Definition llama3_405b_mp16 : Model :=
  {| descriptor := "llama3-405b:mp16";
     huggingface_repo := Some "org/llama-3-405b" |}.

Definition llama3_draft : Model :=
  {| descriptor := "llama3-draft"; huggingface_repo := None |}.

End Shared.

(** ** Clients of the adapter *)

Section Clients.
Context {T : ApiTypes} {D : Collaborators}.

(** The handle [initialize()] binds for a configuration. *)
Definition client_of (cfg : VLLMInferenceAdapterConfig) : OpenAI :=
  {| base_url := url cfg; api_key := api_token cfg |}.

(** The client a backend call was made through. *)
Definition call_client (c : Call) : OpenAI :=
  match c with
  | ModelsList cl => cl
  | CompletionsCreate cl _ => cl
  end.

(** A newly constructed adapter in a world where nothing has happened. *)
Definition new_system (cfg : VLLMInferenceAdapterConfig) : Sys :=
  {| adapter := __init__ cfg; calls := []; stdout := [] |}.

(** The methods a client can call on the adapter, with their arguments. *)
Inductive Op : Type :=
  | DoInitialize
  | DoShutdown
  | DoRegisterModel (model : ModelDef)
  | DoListModels
  | DoCompletion (model : string) (content : InterleavedTextMedia)
      (sampling_params : option SamplingParams)
      (response_format : option ResponseFormat)
      (stream : option bool) (logprobs : option LogProbConfig)
  | DoEmbeddings (model : string) (contents : list InterleavedTextMedia)
  | DoChatCompletion (model : string) (messages : list Message)
      (sampling_params : option SamplingParams)
      (response_format : option ResponseFormat)
      (tools : option (list ToolDefinition))
      (tool_choice : option ToolChoice)
      (tool_prompt_format : option ToolPromptFormat)
      (stream : option bool) (logprobs : option LogProbConfig).

(** A client that takes what [chat_completion] hands back and, when it is
    a generator, pulls it to its end at once. *)
Definition drain (r : (exn + ChatResult) * Sys) : Sys :=
  match r with
  | (inr (Streaming g), s') => snd (async_for g s')
  | (inr (Response _), s') => s'
  | (inl _, s') => s'
  end.

(** The system after one method call, whatever the call returned or
    raised. *)
Definition perform (op : Op) (s : Sys) : Sys :=
  match op with
  | DoInitialize => snd (initialize s)
  | DoShutdown => snd (shutdown s)
  | DoRegisterModel model => snd (register_model model s)
  | DoListModels => snd (list_models s)
  | DoCompletion model content sampling_params response_format stream
                 logprobs =>
      snd (completion model content sampling_params response_format stream
                      logprobs s)
  | DoEmbeddings model contents => snd (embeddings model contents s)
  | DoChatCompletion model messages sampling_params response_format tools
                     tool_choice tool_prompt_format stream logprobs =>
      drain (chat_completion model messages sampling_params response_format
                             tools tool_choice tool_prompt_format stream
                             logprobs s)
  end.

(** The system after a sequence of method calls, first to last. *)
Definition perform_all (ops : list Op) (s : Sys) : Sys :=
  fold_left (fun s op => perform op s) ops s.

Definition is_initialize (op : Op) : bool :=
  match op with
  | DoInitialize => true
  | _ => false
  end.

(** The keys [_get_params] writes itself. *)
Definition fixed_keys : list string :=
  ["model"; "prompt"; "stream"; "max_tokens"].

End Clients.

(** * Properties *)

(** ** The registry mapping *)

Section Registry.
Context {T : ApiTypes} {D : Collaborators}.

Lemma truthy_str_nonempty (r : string) :
  r <> "" -> truthy_str (Some r) = true.
Proof.
  intros Hr. unfold truthy_str.
  destruct (String.eqb_spec r "") as [E | _]; [contradiction | reflexivity].
Qed.

(** After the comprehension has run over [l], the entry of [r] is the
    descriptor shared by the models of [l] that have that repository, or
    what the table held before when there is no such model. *)
Lemma repo_table_fold_lookup (l : list Model) (acc : gmap string string)
    (r d : string) :
  r <> "" ->
  (forall m, In m l -> huggingface_repo m = Some r -> descriptor m = d) ->
  acc !! r = Some d \/ (exists m, In m l /\ huggingface_repo m = Some r) ->
  fold_left repo_table_add l acc !! r = Some d.
Proof.
  intros Hr. revert acc.
  induction l as [| m l IH]; intros acc Hall Hsrc; simpl.
  - destruct Hsrc as [Hacc | (m & [] & _)]. exact Hacc.
  - apply IH.
    + intros m' Hin. apply Hall. right. exact Hin.
    + unfold repo_table_add.
      destruct (huggingface_repo m) as [repo |] eqn:Hrepo.
      * destruct (decide (repo = r)) as [-> | Hne].
        -- left. rewrite truthy_str_nonempty by exact Hr.
           rewrite lookup_insert_eq. f_equal.
           apply Hall; [left; reflexivity | exact Hrepo].
        -- destruct Hsrc as [Hacc | (m' & [-> | Hin] & Hm')].
           ++ left. destruct (truthy_str (Some repo)); [| exact Hacc].
              rewrite lookup_insert_ne by exact Hne. exact Hacc.
           ++ congruence.
           ++ right. exists m'. split; assumption.
      * destruct Hsrc as [Hacc | (m' & [-> | Hin] & Hm')].
        -- left. exact Hacc.
        -- congruence.
        -- right. exists m'. split; assumption.
Qed.

(** An identifier that comes out of the table was put there for a
    catalogue model. *)
Lemma repo_table_fold_sound (l : list Model) (acc : gmap string string)
    (r d : string) :
  fold_left repo_table_add l acc !! r = Some d ->
  acc !! r = Some d \/
  (exists m, In m l /\ huggingface_repo m = Some r /\ descriptor m = d).
Proof.
  revert acc. induction l as [| m l IH]; intros acc Hfold; simpl in *.
  - left. exact Hfold.
  - destruct (IH _ Hfold) as [Hacc | (m' & Hin & Hm')].
    + unfold repo_table_add in Hacc.
      destruct (huggingface_repo m) as [repo |] eqn:Hrepo; [| left; exact Hacc].
      destruct (truthy_str (Some repo)); [| left; exact Hacc].
      destruct (decide (repo = r)) as [-> | Hne].
      * rewrite lookup_insert_eq in Hacc. right. exists m.
        split; [left; reflexivity |]. split; [exact Hrepo | congruence].
      * rewrite lookup_insert_ne in Hacc by exact Hne. left. exact Hacc.
    + right. exists m'. split; [right; exact Hin | exact Hm'].
Qed.

(** In a catalogue where each backend repository identifier names one
    canonical identifier, an identifier that resolves to its catalogue
    model, a model with a repository, is given back by the table. *)
Theorem registry_round_trip (cfg : VLLMInferenceAdapterConfig)
    (canonical_id : string) (m : Model) (repo : string) :
  unique_backend_repo all_registered_models ->
  In m all_registered_models ->
  descriptor m = canonical_id ->
  huggingface_repo m = Some repo ->
  repo <> "" ->
  resolve_model canonical_id = Some m ->
  resolve_backend_id canonical_id = inr (Some repo) /\
  resolve_canonical_id (__init__ cfg) repo = Some canonical_id.
Proof.
  intros Huniq Hin Hdesc Hrepo Hne Hres. split.
  - unfold resolve_backend_id. rewrite Hres, Hrepo. reflexivity.
  - unfold resolve_canonical_id, __init__, repo_table. simpl.
    apply repo_table_fold_lookup.
    + exact Hne.
    + intros m' Hin' Hrepo'. rewrite <- Hdesc.
      apply Huniq; [exact Hin' | exact Hin | congruence].
    + right. exists m. split; assumption.
Qed.

End Registry.

(** ** The request translator *)

Section Translator.
Context {T : ApiTypes} {D : Collaborators}.

Lemma options_with_max_tokens_lookup (self : VLLMInferenceAdapter)
    (request : ChatCompletionRequest) :
  options_with_max_tokens self request !! "max_tokens" =
  Some (default (PyInt (max_tokens (config self)))
          (get_sampling_options (sampling_params request) !! "max_tokens")).
Proof.
  unfold options_with_max_tokens.
  destruct (get_sampling_options (sampling_params request) !! "max_tokens")
    as [bound |] eqn:Hopt; simpl.
  - exact Hopt.
  - apply lookup_insert_eq.
Qed.

Lemma _get_params_unknown (self : VLLMInferenceAdapter)
    (request : ChatCompletionRequest) :
  resolve_model (model request) = None ->
  _get_params self request =
  inl (ValueError (unknown_model_prefix +:+ model request)).
Proof.
  intros Hres. unfold _get_params, resolve_backend_id.
  rewrite Hres. reflexivity.
Qed.

Lemma _get_params_known (self : VLLMInferenceAdapter)
    (request : ChatCompletionRequest) (m : Model) :
  resolve_model (model request) = Some m ->
  exists params, _get_params self request = inr params.
Proof.
  intros Hres. unfold _get_params, resolve_backend_id.
  rewrite Hres. eexists. reflexivity.
Qed.

Lemma unknown_model_kind (name : string) :
  error_kind (ValueError (unknown_model_prefix +:+ name)) = Some UnknownModel.
Proof.
  unfold error_kind, unknown_model_prefix. simpl.
  destruct name; reflexivity.
Qed.

(** C8.  In the parameters the request translator builds, the max-token
    option is the configured ceiling when the sampling options extracted
    from the request carry no max-token bound, and the extracted bound when
    they carry one. *)
Theorem default_max_tokens (self : VLLMInferenceAdapter)
    (request : ChatCompletionRequest) (params : gmap string PyVal) :
  _get_params self request = inr params ->
  (get_sampling_options (sampling_params request) !! "max_tokens" = None ->
   params !! "max_tokens" = Some (PyInt (max_tokens (config self)))) /\
  (forall bound,
     get_sampling_options (sampling_params request) !! "max_tokens"
       = Some bound ->
     params !! "max_tokens" = Some bound).
Proof.
  unfold _get_params. intros Hp.
  destruct (resolve_backend_id (model request)) as [e | repo]; [discriminate |].
  injection Hp as <-.
  pose proof (options_with_max_tokens_lookup self request) as Hmax.
  split.
  - intros Hnone. rewrite Hnone in Hmax. simpl in Hmax.
    apply lookup_union_Some_l. exact Hmax.
  - intros bound Hsome. rewrite Hsome in Hmax. simpl in Hmax.
    apply lookup_union_Some_l. exact Hmax.
Qed.

(** C10.  With [tools] absent, the request that [chat_completion] builds
    has the empty list of tools, and it is this request that goes to the
    streaming generator or to the non-streaming call. *)
Theorem absent_tools_are_empty (s : Sys) (model : string)
    (messages : list Message) (sampling_params : option SamplingParams)
    (response_format : option ResponseFormat)
    (tool_choice : option ToolChoice)
    (tool_prompt_format : option ToolPromptFormat)
    (stream : option bool) (logprobs : option LogProbConfig) :
  let request :=
    build_request model messages sampling_params response_format None
                  tool_choice tool_prompt_format stream logprobs in
  tools request = [] /\
  chat_completion model messages sampling_params response_format None
                  tool_choice tool_prompt_format stream logprobs s =
  (if truthy_bool stream
   then ret (Streaming {| gen_request := request;
                          gen_client := client (adapter s) |})
   else r ← _nonstream_chat_completion request (client (adapter s));
        ret (Response r)) s.
Proof.
  split; [reflexivity |].
  unfold chat_completion, mbind, M_bind, bind, get_self. simpl.
  destruct (truthy_bool stream); reflexivity.
Qed.

End Translator.

(** ** The facade *)

Ltac run_method :=
  unfold mbind, M_bind, mret, M_ret, bind, ret, raise, lift, get_self in *;
  simpl in *.

Section Facade.
Context {T : ApiTypes} {D : Collaborators}.

(** C6.  [register_model], [completion] and [embeddings] raise whatever
    they are given, with an unsupported-operation error, and leave the
    adapter, the backend's call log and the output as they were. *)
Theorem unsupported_operations_fail (s : Sys) (model_def : ModelDef)
    (model : string) (content : InterleavedTextMedia)
    (contents : list InterleavedTextMedia)
    (sampling_params : option SamplingParams)
    (response_format : option ResponseFormat)
    (stream : option bool) (logprobs : option LogProbConfig) :
  register_model model_def s
    = (inl (ValueError registration_unsupported_msg), s) /\
  completion model content sampling_params response_format stream logprobs s
    = (inl NotImplementedError, s) /\
  embeddings model contents s = (inl NotImplementedError, s) /\
  error_kind (ValueError registration_unsupported_msg)
    = Some UnsupportedOperation /\
  error_kind NotImplementedError = Some UnsupportedOperation.
Proof. repeat split. Qed.

Lemma shutdown_noop (s : Sys) : shutdown s = (inr tt, s).
Proof. reflexivity. Qed.

(** C9, as the code has it.  [shutdown()] returns without error and
    changes nothing, the client handle included, however many times it is
    called and whatever state the adapter is in. *)
Theorem shutdown_changes_nothing (s : Sys) (n : nat) :
  shutdown s = (inr tt, s) /\
  shutdown_times n s = (inr tt, s) /\
  client (adapter (snd (shutdown_times n s))) = client (adapter s).
Proof.
  assert (Htimes : shutdown_times n s = (inr tt, s)).
  { induction n as [| k IH]; [reflexivity |].
    simpl. run_method. exact IH. }
  split; [reflexivity |]. split; [exact Htimes |].
  rewrite Htimes. reflexivity.
Qed.

Lemma nonstream_unknown (s : Sys) (request : ChatCompletionRequest)
    (cl : option OpenAI) :
  resolve_model (model request) = None ->
  _nonstream_chat_completion request cl s
  = (inl (ValueError (unknown_model_prefix +:+ model request)), s).
Proof.
  intros Hres. unfold _nonstream_chat_completion. run_method.
  rewrite (_get_params_unknown _ _ Hres). reflexivity.
Qed.

Lemma stream_unknown (s : Sys) (request : ChatCompletionRequest)
    (cl : option OpenAI) :
  resolve_model (model request) = None ->
  _stream_chat_completion request cl s
  = (([], Some (ValueError (unknown_model_prefix +:+ model request))), s).
Proof.
  intros Hres. unfold _stream_chat_completion.
  rewrite (_get_params_unknown _ _ Hres). reflexivity.
Qed.

(** C1.  When the model of the request does not resolve, the call fails
    with the unknown-model error and the system is as before, so the
    backend has not been called: [chat_completion] itself raises when
    [stream] is false; when [stream] is true it hands back the generator,
    which raises at its first pull, in whatever state it is pulled, before
    yielding a chunk. *)
Theorem unknown_model_fails_first (s : Sys) (model : string)
    (messages : list Message) (sampling_params : option SamplingParams)
    (response_format : option ResponseFormat)
    (tools : option (list ToolDefinition))
    (tool_choice : option ToolChoice)
    (tool_prompt_format : option ToolPromptFormat)
    (stream : option bool) (logprobs : option LogProbConfig) :
  resolve_model model = None ->
  let failure := ValueError (unknown_model_prefix +:+ model) in
  let call :=
    chat_completion model messages sampling_params response_format tools
                    tool_choice tool_prompt_format stream logprobs in
  error_kind failure = Some UnknownModel /\
  (truthy_bool stream = false -> call s = (inl failure, s)) /\
  (truthy_bool stream = true ->
   exists g, call s = (inr (Streaming g), s) /\
             forall s', async_for g s' = (([], Some failure), s')).
Proof.
  intros Hres failure call. split; [apply unknown_model_kind |].
  subst call. unfold chat_completion. split; intros Hstream.
  - run_method. rewrite Hstream.
    rewrite nonstream_unknown by exact Hres. reflexivity.
  - run_method. rewrite Hstream. eexists. split; [reflexivity |].
    intros s'. unfold async_for. simpl.
    rewrite stream_unknown by exact Hres. reflexivity.
Qed.

(** C4.  On an initialized adapter, a request with [stream] false for a
    model that resolves makes exactly one backend call, the
    [completions.create] call with the parameters the translator built,
    whatever the backend answers; and when the backend answers and the
    answer decodes, [chat_completion] returns that one decoded response. *)
Theorem nonstream_one_response_one_call (s : Sys) (c : OpenAI) (m : Model)
    (model : string) (messages : list Message)
    (sampling_params : option SamplingParams)
    (response_format : option ResponseFormat)
    (tools : option (list ToolDefinition))
    (tool_choice : option ToolChoice)
    (tool_prompt_format : option ToolPromptFormat)
    (stream : option bool) (logprobs : option LogProbConfig) :
  client (adapter s) = Some c ->
  truthy_bool stream = false ->
  resolve_model model = Some m ->
  let request :=
    build_request model messages sampling_params response_format tools
                  tool_choice tool_prompt_format stream logprobs in
  let call :=
    chat_completion model messages sampling_params response_format tools
                    tool_choice tool_prompt_format stream logprobs in
  exists params,
    _get_params (adapter s) request = inr params /\
    snd (call s) = record_call (CompletionsCreate c params) s /\
    calls (snd (call s)) = calls s ++ [CompletionsCreate c params] /\
    forall r response,
      backend_completions_create c (calls s) params = inr r ->
      process_chat_completion_response r (formatter (adapter s))
        = inr response ->
      fst (call s) = inr (Response response).
Proof.
  intros Hclient Hstream Hres request call.
  destruct (_get_params_known (adapter s) request m Hres) as [params Hparams].
  exists params. split; [exact Hparams |].
  assert (Hcall : call s =
    (match backend_completions_create c (calls s) params with
     | inr r =>
         match process_chat_completion_response r (formatter (adapter s)) with
         | inr response => inr (Response response)
         | inl e => inl e
         end
     | inl e => inl e
     end, record_call (CompletionsCreate c params) s)).
  { subst call. unfold chat_completion, _nonstream_chat_completion,
      the_completions, completions_create.
    run_method. rewrite Hstream. fold request. rewrite Hparams, Hclient. simpl.
    destruct (backend_completions_create c (calls s) params) as [e | r];
      simpl; [reflexivity |].
    destruct (process_chat_completion_response r (formatter (adapter s)));
      reflexivity. }
  rewrite Hcall. simpl. split; [reflexivity |]. split; [reflexivity |].
  intros r response Hcreate Hdecode. rewrite Hcreate, Hdecode. reflexivity.
Qed.

Lemma list_models_loop_spec (self : VLLMInferenceAdapter)
    (page : list string) :
  forall (models : list ModelDef) (s : Sys),
    list_models_loop self page models s
    = (inr (models ++ descriptors_of self page),
       {| adapter := adapter s;
          calls := calls s;
          stdout := stdout s ++ unknown_notices self page |}).
Proof.
  induction page as [| repo rest IH]; intros models s.
  - simpl. unfold ret. rewrite !app_nil_r. destruct s; reflexivity.
  - simpl. unfold resolve_canonical_id, descriptors_of, unknown_notices.
    simpl.
    destruct (huggingface_repo_to_llama_model_id self !! repo)
      as [identifier |] eqn:Hknown; simpl.
    + rewrite IH. rewrite <- app_assoc. reflexivity.
    + run_method. rewrite IH. simpl. rewrite <- app_assoc. reflexivity.
Qed.

Lemma descriptors_of_length (self : VLLMInferenceAdapter)
    (reported : list string) :
  length (descriptors_of self reported)
  = length (filter
              (fun repo => is_Some (huggingface_repo_to_llama_model_id self
                                      !! repo))
              reported).
Proof.
  unfold descriptors_of.
  induction reported as [| repo rest IH]; [reflexivity |].
  rewrite filter_cons. simpl.
  destruct (huggingface_repo_to_llama_model_id self !! repo) eqn:Hknown.
  - rewrite decide_True by (eexists; reflexivity). simpl. f_equal. exact IH.
  - rewrite decide_False by (intros [x Hx]; discriminate). exact IH.
Qed.

Lemma descriptors_of_elem (self : VLLMInferenceAdapter)
    (reported : list string) (d : ModelDef) :
  d ∈ descriptors_of self reported <->
  exists repo,
    repo ∈ reported /\
    huggingface_repo_to_llama_model_id self !! repo = Some (identifier d) /\
    llama_model d = identifier d.
Proof.
  unfold descriptors_of. rewrite list_elem_of_omap. split.
  - intros (repo & Hin & Hd). exists repo. split; [exact Hin |].
    destruct (huggingface_repo_to_llama_model_id self !! repo);
      [| discriminate].
    injection Hd as <-. split; reflexivity.
  - intros (repo & Hin & Hknown & Hsame). exists repo. split; [exact Hin |].
    rewrite Hknown. destruct d as [i l]. simpl in *. subst l. reflexivity.
Qed.

(** C5.  On an initialized adapter whose backend reports a list of model
    identifiers, [list_models] returns, without raising, one descriptor for
    each reported identifier the table knows — the canonical identifier the
    table gives it — and none for the others, in the order reported; the
    backend has been asked once and each unknown identifier has been
    printed. *)
Theorem list_models_maps_known (s : Sys) (c : OpenAI)
    (reported : list string) :
  client (adapter s) = Some c ->
  backend_models_list c (calls s) = inr reported ->
  list_models s
  = (inr (descriptors_of (adapter s) reported),
     {| adapter := adapter s;
        calls := calls s ++ [ModelsList c];
        stdout := stdout s ++ unknown_notices (adapter s) reported |}) /\
  length (descriptors_of (adapter s) reported)
  = length (filter
              (fun repo =>
                 is_Some (huggingface_repo_to_llama_model_id (adapter s)
                            !! repo))
              reported) /\
  (forall d,
     d ∈ descriptors_of (adapter s) reported <->
     exists repo,
       repo ∈ reported /\
       huggingface_repo_to_llama_model_id (adapter s) !! repo
         = Some (identifier d) /\
       llama_model d = identifier d).
Proof.
  intros Hclient Hlist. split.
  - unfold list_models, models_list. run_method.
    rewrite Hclient. simpl. rewrite Hlist.
    rewrite list_models_loop_spec. reflexivity.
  - split; [apply descriptors_of_length |].
    intros d. apply descriptors_of_elem.
Qed.

(** C7, as the code has it.  On an adapter whose client is still [None],
    no data operation reaches the backend, and no not-initialized error is
    raised.  [list_models] raises the interpreter's [AttributeError] on
    [None.models].  [chat_completion] with [stream] false raises the
    unknown-model error when the model does not resolve and the
    [AttributeError] on [None.completions] when it does.  With [stream]
    true it hands back a generator without raising; in whatever state the
    generator is pulled, the system is left as it is, and the generator
    raises the unknown-model error when the model does not resolve; when
    the model resolves, the decoder is given a stream that raises the
    [AttributeError] at its first pull, and what the consumer receives is
    what the decoder makes of that stream: the iteration ends with the
    [AttributeError] when the decoder passes it on. *)
Theorem uninitialized_operations (s : Sys) (model : string)
    (messages : list Message) (sampling_params : option SamplingParams)
    (response_format : option ResponseFormat)
    (tools : option (list ToolDefinition))
    (tool_choice : option ToolChoice)
    (tool_prompt_format : option ToolPromptFormat)
    (stream : option bool) (logprobs : option LogProbConfig) :
  client (adapter s) = None ->
  let call :=
    chat_completion model messages sampling_params response_format tools
                    tool_choice tool_prompt_format stream logprobs in
  let failure :=
    match resolve_model model with
    | None => ValueError (unknown_model_prefix +:+ model)
    | Some _ => none_has_no_attribute "completions"
    end in
  list_models s = (inl (none_has_no_attribute "models"), s) /\
  error_kind (none_has_no_attribute "models") = None /\
  error_kind (none_has_no_attribute "completions") = None /\
  (truthy_bool stream = false -> call s = (inl failure, s)) /\
  (truthy_bool stream = true ->
   exists g,
     call s = (inr (Streaming g), s) /\
     forall s',
       async_for g s'
       = (match resolve_model model with
          | None => ([], Some failure)
          | Some _ =>
              process_chat_completion_stream_response
                ([], Some failure) (formatter (adapter s'))
          end, s') /\
       ((forall e f,
           snd (process_chat_completion_stream_response ([], Some e) f)
           = Some e) ->
        snd (fst (async_for g s')) = Some failure)).
Proof.
  intros Hclient call failure.
  split.
  { unfold list_models. run_method. rewrite Hclient. reflexivity. }
  split; [reflexivity |]. split; [reflexivity |].
  subst call failure. unfold chat_completion. split; intros Hstream.
  - run_method. rewrite Hstream, Hclient.
    unfold _nonstream_chat_completion, _get_params, resolve_backend_id.
    run_method. destruct (resolve_model model); reflexivity.
  - run_method. rewrite Hstream, Hclient. eexists. split; [reflexivity |].
    intros s'.
    unfold async_for, _stream_chat_completion, _get_params,
      resolve_backend_id. simpl.
    destruct (resolve_model model); simpl.
    + split; [reflexivity |]. intros Hpass. apply Hpass.
    + split; [reflexivity |]. intros _. reflexivity.
Qed.

End Facade.

(** ** The streaming path *)

Section Streaming.
Context {T : ApiTypes} {D : Collaborators}.

Lemma closing_chunk_terminal (raw : list CompletionChunk) :
  is_terminal (closing_chunk raw) = true.
Proof.
  unfold closing_chunk.
  destruct (first_signal raw) as [[c signal] |]; reflexivity.
Qed.

Lemma before_signal_prefix (raw : list CompletionChunk) :
  before_signal raw `prefix_of` raw.
Proof.
  induction raw as [| c rest IH]; simpl.
  - exists []. reflexivity.
  - destruct (chunk_finish_reason c).
    + apply prefix_nil.
    + apply prefix_cons. exact IH.
Qed.

Lemma first_signal_none (raw : list CompletionChunk) :
  first_signal raw = None -> before_signal raw = raw.
Proof.
  induction raw as [| c rest IH]; simpl; [reflexivity |].
  destruct (chunk_finish_reason c); [discriminate |].
  intros Hnone. rewrite IH by exact Hnone. reflexivity.
Qed.

Lemma first_signal_some (raw : list CompletionChunk) (c : CompletionChunk)
    (signal : FinishSignal) :
  first_signal raw = Some (c, signal) ->
  chunk_finish_reason c = Some signal /\
  exists rest, raw = before_signal raw ++ c :: rest.
Proof.
  induction raw as [| c0 rest IH]; simpl; [discriminate |].
  destruct (chunk_finish_reason c0) as [signal0 |] eqn:Hsig.
  - intros [= <- <-]. split; [exact Hsig |]. exists rest. reflexivity.
  - intros Hsome. destruct (IH Hsome) as [Hc [rest' Hraw]].
    split; [exact Hc |]. exists rest'. simpl. f_equal. exact Hraw.
Qed.

(** The decoder on a backend stream that ends without failing: the chunks
    before the first signal, re-emitted in order as in-progress chunks, and
    then the closing chunk. *)
Lemma normalize_chunks_complete (raw : list CompletionChunk) :
  normalize_chunks raw None
  = (map progress_chunk (before_signal raw) ++ [closing_chunk raw], None).
Proof.
  induction raw as [| c rest IH]; [reflexivity |].
  simpl. unfold closing_chunk. simpl.
  destruct (chunk_finish_reason c) as [signal |]; [reflexivity |].
  rewrite IH. reflexivity.
Qed.

Lemma progress_then_terminal (l : list CompletionChunk)
    (last : ChatCompletionResponseStreamChunk) :
  is_terminal last = true ->
  well_terminated (map progress_chunk l ++ [last]).
Proof.
  intros Hlast. exists (map progress_chunk l), last.
  split; [reflexivity |]. split; [exact Hlast |].
  apply Forall_forall. intros x Hx.
  apply list_elem_of_In, in_map_iff in Hx. destruct Hx as (c & <- & _).
  reflexivity.
Qed.

Lemma well_terminated_nonempty (out : list ChatCompletionResponseStreamChunk) :
  well_terminated out -> out <> [].
Proof.
  intros (init & last & -> & _) Hnil.
  destruct init; discriminate.
Qed.

(** C3, as the code has it.  With the decoder of the design, on an
    initialized adapter, a request with [stream] true for a model that
    resolves, whose backend call answers with a chunk sequence that ends
    without failing, produces: the backend's chunks before the first finish
    signal, in their order, as in-progress chunks, and then one terminal
    chunk, which is the signalling chunk when there is one and the
    synthesized terminal chunk when the backend's sequence ends without a
    signal.  So the produced sequence is not empty, its last element is
    terminal and no other element is. *)
Theorem stream_ends_in_one_terminal (s : Sys) (c : OpenAI) (m : Model)
    (model : string) (messages : list Message)
    (sampling_params : option SamplingParams)
    (response_format : option ResponseFormat)
    (tools : option (list ToolDefinition))
    (tool_choice : option ToolChoice)
    (tool_prompt_format : option ToolPromptFormat)
    (stream : option bool) (logprobs : option LogProbConfig) :
  (forall raw f,
     process_chat_completion_stream_response raw f = normalize_stream raw f) ->
  client (adapter s) = Some c ->
  truthy_bool stream = true ->
  resolve_model model = Some m ->
  let request :=
    build_request model messages sampling_params response_format tools
                  tool_choice tool_prompt_format stream logprobs in
  exists g params,
    chat_completion model messages sampling_params response_format tools
                    tool_choice tool_prompt_format stream logprobs s
      = (inr (Streaming g), s) /\
    _get_params (adapter s) request = inr params /\
    forall r raw,
      backend_completions_create c (calls s) params = inr r ->
      iterate r = (raw, None) ->
      let produced :=
        map progress_chunk (before_signal raw) ++ [closing_chunk raw] in
      async_for g s
        = ((produced, None), record_call (CompletionsCreate c params) s) /\
      produced <> [] /\
      well_terminated produced /\
      before_signal raw `prefix_of` raw /\
      (first_signal raw = None ->
       produced = map progress_chunk raw ++ [synthesized_terminal]) /\
      (forall c0 signal,
         first_signal raw = Some (c0, signal) ->
         closing_chunk raw = terminal_chunk c0 signal /\
         exists rest, raw = before_signal raw ++ c0 :: rest).
Proof.
  intros Hnorm Hclient Hstream Hres request.
  destruct (_get_params_known (adapter s) request m Hres) as [params Hparams].
  eexists. exists params. split.
  { unfold chat_completion. run_method. rewrite Hstream. reflexivity. }
  split; [exact Hparams |].
  intros r raw Hcreate Hiter produced.
  assert (Hwell : well_terminated produced).
  { apply progress_then_terminal, closing_chunk_terminal. }
  split.
  { unfold async_for, _stream_chat_completion, _to_async_generator,
      completions_create. simpl.
    fold request. rewrite Hparams, Hclient, Hcreate, Hiter, Hnorm.
    unfold normalize_stream. simpl.
    rewrite normalize_chunks_complete. reflexivity. }
  split; [apply well_terminated_nonempty; exact Hwell |].
  split; [exact Hwell |].
  split; [apply before_signal_prefix |].
  split.
  - intros Hnone. subst produced. unfold closing_chunk.
    rewrite Hnone, first_signal_none by exact Hnone. reflexivity.
  - intros c0 signal Hsome. split.
    + unfold closing_chunk. rewrite Hsome. reflexivity.
    + apply (first_signal_some raw c0 signal Hsome).
Qed.

End Streaming.

(** ** More on the table built at construction *)

Section Table.
Context {T : ApiTypes} {D : Collaborators}.

Lemma repo_table_fold_untouched (l : list Model) (acc : gmap string string)
    (r : string) :
  (forall m, In m l -> huggingface_repo m <> Some r) ->
  fold_left repo_table_add l acc !! r = acc !! r.
Proof.
  revert acc. induction l as [| m l IH]; intros acc Hno; [reflexivity |].
  simpl. rewrite IH by (intros m' Hin; apply Hno; right; exact Hin).
  unfold repo_table_add.
  destruct (huggingface_repo m) as [repo |] eqn:Hrepo; [| reflexivity].
  destruct (truthy_str (Some repo)); [| reflexivity].
  apply lookup_insert_ne. intros ->.
  apply (Hno m); [left; reflexivity | exact Hrepo].
Qed.

Lemma truthy_str_true (r : string) :
  truthy_str (Some r) = true -> r <> "".
Proof.
  unfold truthy_str. destruct (String.eqb_spec r ""); [discriminate | auto].
Qed.

Lemma repo_table_fold_entry (l : list Model) (acc : gmap string string)
    (r d : string) :
  fold_left repo_table_add l acc !! r = Some d ->
  acc !! r = Some d \/
  (r <> "" /\
   exists m, In m l /\ huggingface_repo m = Some r /\ descriptor m = d).
Proof.
  revert acc. induction l as [| m l IH]; intros acc Hfold; simpl in *.
  - left. exact Hfold.
  - destruct (IH _ Hfold) as [Hacc | (Hne & m' & Hin & Hm')].
    + unfold repo_table_add in Hacc.
      destruct (huggingface_repo m) as [repo |] eqn:Hrepo; [| left; exact Hacc].
      destruct (truthy_str (Some repo)) eqn:Htruthy; [| left; exact Hacc].
      destruct (decide (repo = r)) as [-> | Hneq].
      * rewrite lookup_insert_eq in Hacc. right.
        split; [apply truthy_str_true; exact Htruthy |].
        exists m. split; [left; reflexivity |].
        split; [exact Hrepo | congruence].
      * rewrite lookup_insert_ne in Hacc by exact Hneq. left. exact Hacc.
    + right. split; [exact Hne |].
      exists m'. split; [right; exact Hin | exact Hm'].
Qed.

Lemma repo_table_fold_present (l : list Model) (acc : gmap string string)
    (r : string) :
  r <> "" ->
  is_Some (acc !! r) \/ (exists m, In m l /\ huggingface_repo m = Some r) ->
  is_Some (fold_left repo_table_add l acc !! r).
Proof.
  intros Hr. revert acc.
  induction l as [| m l IH]; intros acc Hsrc; simpl.
  - destruct Hsrc as [Hacc | (m & [] & _)]. exact Hacc.
  - apply IH. unfold repo_table_add.
    destruct (huggingface_repo m) as [repo |] eqn:Hrepo.
    + destruct (decide (repo = r)) as [-> | Hne].
      * left. rewrite truthy_str_nonempty by exact Hr.
        rewrite lookup_insert_eq. eexists. reflexivity.
      * destruct Hsrc as [Hacc | (m' & [-> | Hin] & Hm')].
        -- left. destruct (truthy_str (Some repo)); [| exact Hacc].
           rewrite lookup_insert_ne by exact Hne. exact Hacc.
        -- congruence.
        -- right. exists m'. split; assumption.
    + destruct Hsrc as [Hacc | (m' & [-> | Hin] & Hm')].
      * left. exact Hacc.
      * congruence.
      * right. exists m'. split; assumption.
Qed.

(** X1.  When several catalogue models name the same repository, the
    table built by the comprehension of [__init__] keeps the descriptor of
    the last of them: a model with a non-empty repository that no later
    catalogue model shares is the one its repository maps to, whatever
    comes before it. *)
Theorem repo_table_last_wins (earlier later : list Model) (m : Model)
    (repo : string) :
  huggingface_repo m = Some repo ->
  repo <> "" ->
  (forall m', In m' later -> huggingface_repo m' <> Some repo) ->
  repo_table (earlier ++ m :: later) !! repo = Some (descriptor m).
Proof.
  intros Hrepo Hne Hlater. unfold repo_table.
  rewrite fold_left_app. simpl.
  rewrite repo_table_fold_untouched by exact Hlater.
  unfold repo_table_add. rewrite Hrepo.
  rewrite truthy_str_nonempty by exact Hne.
  apply lookup_insert_eq.
Qed.

(** X2.  The table of a newly constructed adapter has an entry for a
    repository exactly when the repository is a non-empty string that some
    catalogue model names, and every entry is the descriptor of a catalogue
    model with that repository; a model without a repository, or with the
    empty one, contributes nothing. *)
Theorem init_table_entries (cfg : VLLMInferenceAdapterConfig)
    (repo : string) :
  (is_Some (huggingface_repo_to_llama_model_id (__init__ cfg) !! repo) <->
   repo <> "" /\
   exists m, In m all_registered_models /\ huggingface_repo m = Some repo) /\
  (forall d,
     huggingface_repo_to_llama_model_id (__init__ cfg) !! repo = Some d ->
     exists m,
       In m all_registered_models /\
       huggingface_repo m = Some repo /\
       descriptor m = d).
Proof.
  unfold __init__, repo_table. simpl. split; [split |].
  - intros [d Hd].
    destruct (repo_table_fold_entry _ _ _ _ Hd) as [Hempty | (Hne & m & Hin & Hr & _)].
    + rewrite lookup_empty in Hempty. discriminate.
    + split; [exact Hne |]. exists m. split; assumption.
  - intros (Hne & m & Hin & Hr).
    apply repo_table_fold_present; [exact Hne |].
    right. exists m. split; assumption.
  - intros d Hd.
    destruct (repo_table_fold_entry _ _ _ _ Hd) as [Hempty | (_ & m & Hm)].
    + rewrite lookup_empty in Hempty. discriminate.
    + exists m. exact Hm.
Qed.

End Table.

(** ** The round trip through the table *)

Section RoundTrip.
Context {T : ApiTypes} {D : Collaborators}.

(** C2, as the code has it.  The table is filled in catalogue order and
    the adapter does not check that a repository is named once, so a
    repository maps to the descriptor of the last catalogue model that
    names it.  For a canonical identifier that resolves to a model with a
    non-empty repository, resolving the identifier and looking the
    repository up in the table gives the descriptor of that last model;
    the identifier comes back exactly when it is that descriptor, as it is
    when no other model shares the repository. *)
Theorem registry_round_trip_last_wins (cfg : VLLMInferenceAdapterConfig)
    (canonical_id : string) (m : Model) (repo : string)
    (earlier later : list Model) (last : Model) :
  resolve_model canonical_id = Some m ->
  huggingface_repo m = Some repo ->
  repo <> "" ->
  all_registered_models = earlier ++ last :: later ->
  huggingface_repo last = Some repo ->
  (forall m', In m' later -> huggingface_repo m' <> Some repo) ->
  resolve_backend_id canonical_id = inr (Some repo) /\
  resolve_canonical_id (__init__ cfg) repo = Some (descriptor last) /\
  (resolve_canonical_id (__init__ cfg) repo = Some canonical_id <->
   descriptor last = canonical_id).
Proof.
  intros Hres Hrepo Hne Hcat Hlast Hlater.
  assert (Htable :
    resolve_canonical_id (__init__ cfg) repo = Some (descriptor last)).
  { unfold resolve_canonical_id, __init__, repo_table. simpl.
    rewrite Hcat, fold_left_app. simpl.
    rewrite repo_table_fold_untouched by exact Hlater.
    unfold repo_table_add. rewrite Hlast.
    rewrite truthy_str_nonempty by exact Hne.
    apply lookup_insert_eq. }
  split; [| split].
  - unfold resolve_backend_id. rewrite Hres, Hrepo. reflexivity.
  - exact Htable.
  - rewrite Htable. split; [intros [= Heq]; exact Heq | intros ->; reflexivity].
Qed.

End RoundTrip.

(** ** More on the request translator *)

Section Parameters.
Context {T : ApiTypes} {D : Collaborators}.

Lemma options_with_max_tokens_keep (self : VLLMInferenceAdapter)
    (request : ChatCompletionRequest) (k : string) (v : PyVal) :
  get_sampling_options (sampling_params request) !! k = Some v ->
  options_with_max_tokens self request !! k = Some v.
Proof.
  intros Hk. unfold options_with_max_tokens.
  destruct (get_sampling_options (sampling_params request) !! "max_tokens")
    eqn:Hmax; [exact Hk |].
  rewrite lookup_insert_ne; [exact Hk |].
  intros <-. congruence.
Qed.

Lemma options_with_max_tokens_other (self : VLLMInferenceAdapter)
    (request : ChatCompletionRequest) (k : string) :
  k <> "max_tokens" ->
  options_with_max_tokens self request !! k
  = get_sampling_options (sampling_params request) !! k.
Proof.
  intros Hk. unfold options_with_max_tokens.
  destruct (get_sampling_options (sampling_params request) !! "max_tokens");
    [reflexivity |].
  apply lookup_insert_ne. congruence.
Qed.

(** What [_get_params] returns for a model that resolves. *)
Lemma _get_params_resolved (self : VLLMInferenceAdapter)
    (request : ChatCompletionRequest) (m : Model) :
  resolve_model (model request) = Some m ->
  _get_params self request
  = inr (options_with_max_tokens self request ∪
         <["model" := py_opt_str (huggingface_repo m)]>
         (<["prompt" := PyStr (chat_completion_request_to_prompt
                                 request (formatter self))]>
         (<["stream" := py_opt_bool (stream request)]> ∅))).
Proof.
  intros Hres. unfold _get_params, resolve_backend_id.
  rewrite Hres. reflexivity.
Qed.

(** X3.  Every sampling option the helper extracts reaches the backend
    with its value unchanged, under its own name; this holds for an option
    named like one of the adapter's own keys too, which then replaces the
    adapter's value, the options being unpacked last in the dictionary. *)
Theorem sampling_options_pass_through (self : VLLMInferenceAdapter)
    (request : ChatCompletionRequest) (params : gmap string PyVal)
    (k : string) (v : PyVal) :
  _get_params self request = inr params ->
  get_sampling_options (sampling_params request) !! k = Some v ->
  params !! k = Some v.
Proof.
  unfold _get_params. intros Hp Hk.
  destruct (resolve_backend_id (model request)) as [e | repo]; [discriminate |].
  injection Hp as <-.
  apply lookup_union_Some_l, options_with_max_tokens_keep. exact Hk.
Qed.

(** X4.  For a model that resolves, and sampling options that use none
    of the three names, the parameters carry under ["model"] the resolved
    model's repository ([None] when it has none), under ["prompt"] the
    prompt the formatter makes of the request, and under ["stream"] the
    request's stream flag as it was given. *)
Theorem fixed_parameters (self : VLLMInferenceAdapter)
    (request : ChatCompletionRequest) (m : Model)
    (params : gmap string PyVal) :
  resolve_model (model request) = Some m ->
  _get_params self request = inr params ->
  let options := get_sampling_options (sampling_params request) in
  (options !! "model" = None ->
   params !! "model" = Some (py_opt_str (huggingface_repo m))) /\
  (options !! "prompt" = None ->
   params !! "prompt"
   = Some (PyStr (chat_completion_request_to_prompt request (formatter self)))) /\
  (options !! "stream" = None ->
   params !! "stream" = Some (py_opt_bool (stream request))).
Proof.
  intros Hres Hp options.
  rewrite (_get_params_resolved self request m Hres) in Hp.
  injection Hp as <-.
  repeat split; intros Hnone;
    (rewrite lookup_union_r
       by (rewrite options_with_max_tokens_other by discriminate;
           exact Hnone));
    reflexivity.
Qed.

(** X5.  The parameters built for a request have exactly these keys:
    those of the sampling options and the four the adapter writes,
    ["model"], ["prompt"], ["stream"] and ["max_tokens"]; so the four are
    always there. *)
Theorem parameter_keys (self : VLLMInferenceAdapter)
    (request : ChatCompletionRequest) (params : gmap string PyVal)
    (k : string) :
  _get_params self request = inr params ->
  is_Some (params !! k) <->
  is_Some (get_sampling_options (sampling_params request) !! k) \/
  k ∈ fixed_keys.
Proof.
  unfold _get_params. intros Hp.
  destruct (resolve_backend_id (model request)) as [e | repo]; [discriminate |].
  injection Hp as <-.
  unfold fixed_keys.
  rewrite lookup_union_is_Some.
  destruct (decide (k = "max_tokens")) as [-> | Hmax].
  - rewrite options_with_max_tokens_lookup. split.
    + intros _. right. set_solver.
    + intros _. left. eexists. reflexivity.
  - rewrite options_with_max_tokens_other by exact Hmax.
    split.
    + intros [Hopt | Hfixed]; [left; exact Hopt | right].
      destruct (decide (k = "model")) as [-> | Hm]; [set_solver |].
      destruct (decide (k = "prompt")) as [-> | Hp]; [set_solver |].
      destruct (decide (k = "stream")) as [-> | Hs]; [set_solver |].
      rewrite !lookup_insert_ne, lookup_empty in Hfixed by congruence.
      destruct Hfixed as [x Hx]. discriminate.
    + intros [Hopt | Hfixed]; [left; exact Hopt | right].
      destruct (decide (k = "model")) as [-> | Hm];
        [rewrite lookup_insert_eq; eexists; reflexivity |].
      destruct (decide (k = "prompt")) as [-> | Hp];
        [rewrite lookup_insert_ne, lookup_insert_eq by congruence;
         eexists; reflexivity |].
      destruct (decide (k = "stream")) as [-> | Hs];
        [rewrite !lookup_insert_ne, lookup_insert_eq by congruence;
         eexists; reflexivity |].
      exfalso.
      repeat (apply elem_of_cons in Hfixed as [-> | Hfixed]; [congruence |]).
      apply elem_of_nil in Hfixed. exact Hfixed.
Qed.

End Parameters.

(** ** More on the facade *)

Section Operations.
Context {T : ApiTypes} {D : Collaborators}.

Lemma nonstream_run (s : Sys) (c : OpenAI) (request : ChatCompletionRequest)
    (params : gmap string PyVal) :
  _get_params (adapter s) request = inr params ->
  _nonstream_chat_completion request (Some c) s
  = (match backend_completions_create c (calls s) params with
     | inr r => process_chat_completion_response r (formatter (adapter s))
     | inl e => inl e
     end, record_call (CompletionsCreate c params) s).
Proof.
  intros Hparams.
  unfold _nonstream_chat_completion, the_completions, completions_create.
  run_method. rewrite Hparams. simpl.
  destruct (backend_completions_create c (calls s) params); reflexivity.
Qed.

Lemma nonstream_run_none (s : Sys) (request : ChatCompletionRequest)
    (params : gmap string PyVal) :
  _get_params (adapter s) request = inr params ->
  _nonstream_chat_completion request None s
  = (inl (none_has_no_attribute "completions"), s).
Proof.
  intros Hparams. unfold _nonstream_chat_completion, the_completions.
  run_method. rewrite Hparams. reflexivity.
Qed.

Lemma nonstream_run_refused (s : Sys) (request : ChatCompletionRequest)
    (cl : option OpenAI) (e : exn) :
  _get_params (adapter s) request = inl e ->
  _nonstream_chat_completion request cl s = (inl e, s).
Proof.
  intros Hparams. unfold _nonstream_chat_completion.
  run_method. rewrite Hparams. reflexivity.
Qed.

Lemma stream_run (s : Sys) (c : OpenAI) (request : ChatCompletionRequest)
    (params : gmap string PyVal) :
  _get_params (adapter s) request = inr params ->
  _stream_chat_completion request (Some c) s
  = (process_chat_completion_stream_response
       (match backend_completions_create c (calls s) params with
        | inr r => iterate r
        | inl e => ([], Some e)
        end) (formatter (adapter s)),
     record_call (CompletionsCreate c params) s).
Proof.
  intros Hparams.
  unfold _stream_chat_completion, _to_async_generator, completions_create.
  rewrite Hparams.
  destruct (backend_completions_create c (calls s) params); reflexivity.
Qed.

Lemma stream_run_none (s : Sys) (request : ChatCompletionRequest)
    (params : gmap string PyVal) :
  _get_params (adapter s) request = inr params ->
  _stream_chat_completion request None s
  = (process_chat_completion_stream_response
       ([], Some (none_has_no_attribute "completions"))
       (formatter (adapter s)), s).
Proof.
  intros Hparams. unfold _stream_chat_completion, _to_async_generator.
  rewrite Hparams. reflexivity.
Qed.

Lemma stream_run_refused (s : Sys) (request : ChatCompletionRequest)
    (cl : option OpenAI) (e : exn) :
  _get_params (adapter s) request = inl e ->
  _stream_chat_completion request cl s = (([], Some e), s).
Proof.
  intros Hparams. unfold _stream_chat_completion.
  rewrite Hparams. reflexivity.
Qed.

Lemma chat_completion_falsy (s : Sys) (model : string)
    (messages : list Message) (sampling_params : option SamplingParams)
    (response_format : option ResponseFormat)
    (tools : option (list ToolDefinition))
    (tool_choice : option ToolChoice)
    (tool_prompt_format : option ToolPromptFormat)
    (stream : option bool) (logprobs : option LogProbConfig) :
  truthy_bool stream = false ->
  chat_completion model messages sampling_params response_format tools
                  tool_choice tool_prompt_format stream logprobs s
  = (let '(r, s') :=
       _nonstream_chat_completion
         (build_request model messages sampling_params response_format tools
                        tool_choice tool_prompt_format stream logprobs)
         (client (adapter s)) s in
     (match r with inr x => inr (Response x) | inl e => inl e end, s')).
Proof.
  intros Hstream. unfold chat_completion. run_method. rewrite Hstream.
  destruct (_nonstream_chat_completion _ _ s) as [[e | r] s']; reflexivity.
Qed.

Lemma chat_completion_truthy (s : Sys) (model : string)
    (messages : list Message) (sampling_params : option SamplingParams)
    (response_format : option ResponseFormat)
    (tools : option (list ToolDefinition))
    (tool_choice : option ToolChoice)
    (tool_prompt_format : option ToolPromptFormat)
    (stream : option bool) (logprobs : option LogProbConfig) :
  truthy_bool stream = true ->
  chat_completion model messages sampling_params response_format tools
                  tool_choice tool_prompt_format stream logprobs s
  = (inr (Streaming
            {| gen_request :=
                 build_request model messages sampling_params response_format
                               tools tool_choice tool_prompt_format stream
                               logprobs;
               gen_client := client (adapter s) |}), s).
Proof.
  intros Hstream. unfold chat_completion. run_method. rewrite Hstream.
  reflexivity.
Qed.

(** [_get_params] reads the configuration and the formatter of the
    adapter and nothing else of it. *)
Lemma _get_params_same (a b : VLLMInferenceAdapter)
    (request : ChatCompletionRequest) :
  config a = config b ->
  formatter a = formatter b ->
  _get_params a request = _get_params b request.
Proof.
  intros Hc Hf. unfold _get_params, options_with_max_tokens.
  rewrite Hc, Hf. reflexivity.
Qed.

(** [initialize()] binds the client made from the configured URL
    and token, whatever client was bound before, without reaching the
    backend; the configuration, the formatter, the table, the call log and
    the output stay as they were, and a second [initialize()] changes
    nothing more. *)
Lemma initialize_binds_configured_client (s : Sys) :
  exists s',
    initialize s = (inr tt, s') /\
    client (adapter s') = Some (client_of (config (adapter s))) /\
    config (adapter s') = config (adapter s) /\
    formatter (adapter s') = formatter (adapter s) /\
    huggingface_repo_to_llama_model_id (adapter s')
      = huggingface_repo_to_llama_model_id (adapter s) /\
    calls s' = calls s /\
    stdout s' = stdout s /\
    initialize s' = (inr tt, s').
Proof.
  eexists. split; [reflexivity |]. simpl. repeat split.
Qed.

(** X6.  On an initialized adapter, when the backend raises on the
    [completions.create] call of a non-streaming request, or the decoder
    raises on the backend's answer, [chat_completion] raises that same
    exception; the one call has been made and there is no second attempt. *)
Theorem nonstream_failures_propagate (s : Sys) (c : OpenAI) (m : Model)
    (model : string) (messages : list Message)
    (sampling_params : option SamplingParams)
    (response_format : option ResponseFormat)
    (tools : option (list ToolDefinition))
    (tool_choice : option ToolChoice)
    (tool_prompt_format : option ToolPromptFormat)
    (stream : option bool) (logprobs : option LogProbConfig) :
  client (adapter s) = Some c ->
  truthy_bool stream = false ->
  resolve_model model = Some m ->
  let call :=
    chat_completion model messages sampling_params response_format tools
                    tool_choice tool_prompt_format stream logprobs in
  exists params,
    _get_params (adapter s)
      (build_request model messages sampling_params response_format tools
                     tool_choice tool_prompt_format stream logprobs)
      = inr params /\
    (forall e,
       backend_completions_create c (calls s) params = inl e ->
       call s = (inl e, record_call (CompletionsCreate c params) s)) /\
    (forall r e,
       backend_completions_create c (calls s) params = inr r ->
       process_chat_completion_response r (formatter (adapter s)) = inl e ->
       call s = (inl e, record_call (CompletionsCreate c params) s)).
Proof.
  intros Hclient Hstream Hres call.
  destruct (_get_params_known (adapter s)
              (build_request model messages sampling_params response_format
                             tools tool_choice tool_prompt_format stream
                             logprobs) m Hres) as [params Hparams].
  exists params. split; [exact Hparams |].
  subst call. rewrite chat_completion_falsy by exact Hstream.
  rewrite Hclient, (nonstream_run s c _ params Hparams).
  split.
  - intros e Hcreate. rewrite Hcreate. reflexivity.
  - intros r e Hcreate Hdecode. rewrite Hcreate, Hdecode. reflexivity.
Qed.

(** X7.  On an initialized adapter, when the backend raises on
    [models.list()], [list_models] raises that same exception after the one
    call: nothing is listed, nothing is printed, the adapter is as it was. *)
Theorem list_models_failure_propagates (s : Sys) (c : OpenAI) (e : exn) :
  client (adapter s) = Some c ->
  backend_models_list c (calls s) = inl e ->
  list_models s = (inl e, record_call (ModelsList c) s).
Proof.
  intros Hclient Hlist. unfold list_models, models_list. run_method.
  rewrite Hclient. simpl. rewrite Hlist. reflexivity.
Qed.

Lemma reported_accounted (self : VLLMInferenceAdapter)
    (reported : list string) :
  length (descriptors_of self reported)
  + length (unknown_notices self reported)
  = length reported.
Proof.
  unfold descriptors_of, unknown_notices.
  induction reported as [| repo rest IH]; [reflexivity |].
  simpl. destruct (huggingface_repo_to_llama_model_id self !! repo); simpl.
  - f_equal. exact IH.
  - rewrite Nat.add_succ_r. f_equal. exact IH.
Qed.

Lemma unknown_notices_filter (self : VLLMInferenceAdapter)
    (reported : list string) :
  unknown_notices self reported
  = (fun repo => "Unknown model served by vllm: " +:+ repo)
    <$> filter (fun repo =>
                  huggingface_repo_to_llama_model_id self !! repo = None)
               reported.
Proof.
  unfold unknown_notices.
  induction reported as [| repo rest IH]; [reflexivity |].
  rewrite filter_cons. simpl.
  destruct (huggingface_repo_to_llama_model_id self !! repo) eqn:Hknown.
  - rewrite decide_False by discriminate. exact IH.
  - rewrite decide_True by reflexivity. simpl. f_equal. exact IH.
Qed.

Lemma descriptors_of_identifiers (self : VLLMInferenceAdapter)
    (reported : list string) :
  identifier <$> descriptors_of self reported
  = omap (fun repo => huggingface_repo_to_llama_model_id self !! repo)
         reported.
Proof.
  unfold descriptors_of.
  induction reported as [| repo rest IH]; [reflexivity |].
  simpl. destruct (huggingface_repo_to_llama_model_id self !! repo); simpl.
  - f_equal. exact IH.
  - exact IH.
Qed.

(** X8.  Every identifier the backend reports is accounted for by
    [list_models], in one of two ways.  The identifiers the table knows
    give the descriptors returned, one each and in their order, with the
    table's canonical identifier in both fields; the identifiers the table
    does not know give the lines printed, one each and in their order,
    each line naming its identifier.  So the number of descriptors returned
    and the number of lines printed add up to the number of identifiers
    reported. *)
Theorem list_models_accounts_for_all (s : Sys) (c : OpenAI)
    (reported : list string) :
  client (adapter s) = Some c ->
  backend_models_list c (calls s) = inr reported ->
  let table := huggingface_repo_to_llama_model_id (adapter s) in
  exists models printed s',
    list_models s = (inr models, s') /\
    stdout s' = stdout s ++ printed /\
    identifier <$> models = omap (fun repo => table !! repo) reported /\
    (forall d, d ∈ models -> llama_model d = identifier d) /\
    printed
    = (fun repo => "Unknown model served by vllm: " +:+ repo)
      <$> filter (fun repo => table !! repo = None) reported /\
    length models
    = length (filter (fun repo => is_Some (table !! repo)) reported) /\
    length models + length printed = length reported.
Proof.
  intros Hclient Hlist table.
  exists (descriptors_of (adapter s) reported),
         (unknown_notices (adapter s) reported).
  eexists. split; [| split; [| split; [| split; [| split; [| split]]]]].
  - unfold list_models, models_list. run_method.
    rewrite Hclient. simpl. rewrite Hlist.
    rewrite list_models_loop_spec. reflexivity.
  - reflexivity.
  - apply descriptors_of_identifiers.
  - intros d Hd. apply descriptors_of_elem in Hd.
    destruct Hd as (repo & _ & _ & Hsame). exact Hsame.
  - apply unknown_notices_filter.
  - apply descriptors_of_length.
  - apply reported_accounted.
Qed.

(** X9.  On an adapter that carries the table built at construction,
    every descriptor [list_models] returns names a catalogue model: its
    identifier is the descriptor of a model of the catalogue whose
    repository is one of the identifiers the backend reported. *)
Theorem list_models_names_catalogue_models (s : Sys) (c : OpenAI)
    (reported : list string) :
  huggingface_repo_to_llama_model_id (adapter s)
    = repo_table all_registered_models ->
  client (adapter s) = Some c ->
  backend_models_list c (calls s) = inr reported ->
  exists models s',
    list_models s = (inr models, s') /\
    forall d,
      d ∈ models ->
      exists m repo,
        In m all_registered_models /\
        repo ∈ reported /\
        huggingface_repo m = Some repo /\
        descriptor m = identifier d.
Proof.
  intros Htable Hclient Hlist.
  exists (descriptors_of (adapter s) reported). eexists. split.
  - unfold list_models, models_list. run_method.
    rewrite Hclient. simpl. rewrite Hlist.
    rewrite list_models_loop_spec. reflexivity.
  - intros d Hd. apply descriptors_of_elem in Hd.
    destruct Hd as (repo & Hin & Hknown & _).
    rewrite Htable in Hknown. unfold repo_table in Hknown.
    destruct (repo_table_fold_sound _ _ _ _ Hknown)
      as [Hempty | (m & Hm & Hrepo & Hdesc)].
    + rewrite lookup_empty in Hempty. discriminate.
    + exists m, repo. repeat split; assumption.
Qed.

(** X10.  A generator keeps the client it was created with.  When
    [chat_completion] is called with [stream] true before [initialize()],
    for a model that resolves, the call returns a generator without
    raising; pulled after [initialize()] has bound a client, the generator
    still has no client: the decoder is given a stream that raises the
    [AttributeError] at its first pull, and the backend is not called. *)
Theorem generator_keeps_its_client (s : Sys) (m : Model)
    (model : string) (messages : list Message)
    (sampling_params : option SamplingParams)
    (response_format : option ResponseFormat)
    (tools : option (list ToolDefinition))
    (tool_choice : option ToolChoice)
    (tool_prompt_format : option ToolPromptFormat)
    (stream : option bool) (logprobs : option LogProbConfig) :
  client (adapter s) = None ->
  truthy_bool stream = true ->
  resolve_model model = Some m ->
  exists g,
    chat_completion model messages sampling_params response_format tools
                    tool_choice tool_prompt_format stream logprobs s
      = (inr (Streaming g), s) /\
    let s' := snd (initialize s) in
    client (adapter s') = Some (client_of (config (adapter s))) /\
    async_for g s'
    = (process_chat_completion_stream_response
         ([], Some (none_has_no_attribute "completions"))
         (formatter (adapter s)), s').
Proof.
  intros Hclient Hstream Hres.
  eexists. split; [apply chat_completion_truthy; exact Hstream |].
  intros s'. split; [reflexivity |].
  unfold async_for. simpl gen_request. simpl gen_client. rewrite Hclient.
  destruct (_get_params_known (adapter s')
              (build_request model messages sampling_params response_format
                             tools tool_choice tool_prompt_format stream
                             logprobs) m Hres) as [params Hparams].
  rewrite (stream_run_none s' _ params Hparams). reflexivity.
Qed.

(** X11.  On an initialized adapter, pulling the generator of a
    streaming request for a model that resolves makes one
    [completions.create] call, with the parameters the translator built,
    and yields what the decoder makes of the backend's chunks, or of the
    exception the backend raised on the call. *)
Theorem stream_one_call (s : Sys) (c : OpenAI) (m : Model)
    (model : string) (messages : list Message)
    (sampling_params : option SamplingParams)
    (response_format : option ResponseFormat)
    (tools : option (list ToolDefinition))
    (tool_choice : option ToolChoice)
    (tool_prompt_format : option ToolPromptFormat)
    (stream : option bool) (logprobs : option LogProbConfig) :
  client (adapter s) = Some c ->
  truthy_bool stream = true ->
  resolve_model model = Some m ->
  exists g params,
    chat_completion model messages sampling_params response_format tools
                    tool_choice tool_prompt_format stream logprobs s
      = (inr (Streaming g), s) /\
    _get_params (adapter s)
      (build_request model messages sampling_params response_format tools
                     tool_choice tool_prompt_format stream logprobs)
      = inr params /\
    calls (snd (async_for g s)) = calls s ++ [CompletionsCreate c params] /\
    (forall r,
       backend_completions_create c (calls s) params = inr r ->
       fst (async_for g s)
       = process_chat_completion_stream_response
           (iterate r) (formatter (adapter s))) /\
    (forall e,
       backend_completions_create c (calls s) params = inl e ->
       fst (async_for g s)
       = process_chat_completion_stream_response
           ([], Some e) (formatter (adapter s))).
Proof.
  intros Hclient Hstream Hres.
  destruct (_get_params_known (adapter s)
              (build_request model messages sampling_params response_format
                             tools tool_choice tool_prompt_format stream
                             logprobs) m Hres) as [params Hparams].
  eexists. exists params.
  split; [apply chat_completion_truthy; exact Hstream |].
  split; [exact Hparams |].
  unfold async_for. simpl gen_request. simpl gen_client. rewrite Hclient.
  rewrite (stream_run s c _ params Hparams). simpl.
  split; [reflexivity |]. split.
  - intros r Hcreate. rewrite Hcreate. reflexivity.
  - intros e Hcreate. rewrite Hcreate. reflexivity.
Qed.

(** X12.  A model that resolves but has no repository is not refused.
    On an initialized adapter a non-streaming request for it, whose
    sampling options do not name the model, makes its one
    [completions.create] call with [None] under ["model"]. *)
Theorem model_without_repository_is_sent_as_none (s : Sys) (c : OpenAI)
    (m : Model) (model : string) (messages : list Message)
    (sampling_params : option SamplingParams)
    (response_format : option ResponseFormat)
    (tools : option (list ToolDefinition))
    (tool_choice : option ToolChoice)
    (tool_prompt_format : option ToolPromptFormat)
    (stream : option bool) (logprobs : option LogProbConfig) :
  client (adapter s) = Some c ->
  truthy_bool stream = false ->
  resolve_model model = Some m ->
  huggingface_repo m = None ->
  get_sampling_options sampling_params !! "model" = None ->
  exists params,
    calls (snd (chat_completion model messages sampling_params
                                response_format tools tool_choice
                                tool_prompt_format stream logprobs s))
      = calls s ++ [CompletionsCreate c params] /\
    params !! "model" = Some PyNone.
Proof.
  intros Hclient Hstream Hres Hrepo Hopt.
  pose proof (_get_params_resolved (adapter s)
                (build_request model messages sampling_params response_format
                               tools tool_choice tool_prompt_format stream
                               logprobs) m Hres) as Hparams.
  eexists. split.
  - rewrite chat_completion_falsy by exact Hstream.
    rewrite Hclient, (nonstream_run s c _ _ Hparams). reflexivity.
  - rewrite lookup_union_r.
    + rewrite Hrepo. reflexivity.
    + rewrite options_with_max_tokens_other by discriminate. exact Hopt.
Qed.

End Operations.

(** ** Sequences of method calls *)

Section Lifecycle.
Context {T : ApiTypes} {D : Collaborators}.

(** X13.  [chat_completion] accepts a response format and never looks at
    it: two calls that differ only in that argument return the same result
    and leave the same system behind. *)
Theorem response_format_is_ignored (s : Sys) (model : string)
    (messages : list Message) (sampling_params : option SamplingParams)
    (format1 format2 : option ResponseFormat)
    (tools : option (list ToolDefinition))
    (tool_choice : option ToolChoice)
    (tool_prompt_format : option ToolPromptFormat)
    (stream : option bool) (logprobs : option LogProbConfig) :
  chat_completion model messages sampling_params format1 tools tool_choice
                  tool_prompt_format stream logprobs s
  = chat_completion model messages sampling_params format2 tools tool_choice
                    tool_prompt_format stream logprobs s.
Proof. reflexivity. Qed.

Lemma drain_nonstream (r : exn + ChatCompletionResponse) (s : Sys) :
  drain (match r with inr x => inr (Response x) | inl e => inl e end, s) = s.
Proof. destruct r; reflexivity. Qed.

(** One method call: what it can change and what it cannot. *)
Lemma perform_step (op : Op) (s : Sys) :
  config (adapter (perform op s)) = config (adapter s) /\
  formatter (adapter (perform op s)) = formatter (adapter s) /\
  huggingface_repo_to_llama_model_id (adapter (perform op s))
    = huggingface_repo_to_llama_model_id (adapter s) /\
  client (adapter (perform op s))
    = (if is_initialize op then Some (client_of (config (adapter s)))
       else client (adapter s)) /\
  (calls (perform op s) = calls s \/
   exists cl call,
     client (adapter s) = Some cl /\
     call_client call = cl /\
     calls (perform op s) = calls s ++ [call]).
Proof.
  destruct op as [| | model_def | | cmodel content csampling cformat cstream
                  clogprobs | emodel contents
                 | cmodel messages sampling format tools tool_choice
                   tool_prompt_format stream logprobs]; simpl.
  - repeat split. left. reflexivity.
  - repeat split. left. reflexivity.
  - repeat split. left. reflexivity.
  - unfold list_models, models_list. run_method.
    destruct (client (adapter s)) as [c |] eqn:Hclient; simpl.
    + destruct (backend_models_list c (calls s)) as [e | page]; simpl.
      * repeat split; try exact Hclient.
        right. exists c, (ModelsList c). repeat split.
      * rewrite list_models_loop_spec. simpl.
        repeat split; try exact Hclient.
        right. exists c, (ModelsList c). repeat split.
    + repeat split; try exact Hclient. left. reflexivity.
  - repeat split. left. reflexivity.
  - repeat split. left. reflexivity.
  - destruct (_get_params (adapter s)
                (build_request cmodel messages sampling format tools
                               tool_choice tool_prompt_format stream
                               logprobs)) as [e | params] eqn:Hparams;
      destruct (truthy_bool stream) eqn:Hstream.
    + rewrite chat_completion_truthy by exact Hstream.
      unfold drain, async_for. simpl gen_request. simpl gen_client.
      rewrite (stream_run_refused s _ _ e Hparams). simpl.
      repeat split. left. reflexivity.
    + rewrite chat_completion_falsy by exact Hstream.
      rewrite (nonstream_run_refused s _ _ e Hparams). simpl.
      repeat split. left. reflexivity.
    + rewrite chat_completion_truthy by exact Hstream.
      unfold drain, async_for. simpl gen_request. simpl gen_client.
      destruct (client (adapter s)) as [c |] eqn:Hclient.
      * rewrite (stream_run s c _ params Hparams). simpl.
        repeat split; try exact Hclient.
        right. exists c, (CompletionsCreate c params). repeat split.
      * rewrite (stream_run_none s _ params Hparams). simpl.
        repeat split; try exact Hclient. left. reflexivity.
    + rewrite chat_completion_falsy by exact Hstream.
      destruct (client (adapter s)) as [c |] eqn:Hclient.
      * rewrite (nonstream_run s c _ params Hparams).
        rewrite drain_nonstream. simpl.
        repeat split; try exact Hclient.
        right. exists c, (CompletionsCreate c params). repeat split.
      * rewrite (nonstream_run_none s _ params Hparams). simpl.
        repeat split; try exact Hclient. left. reflexivity.
Qed.

Lemma perform_all_frame (ops : list Op) (s : Sys) :
  config (adapter (perform_all ops s)) = config (adapter s) /\
  formatter (adapter (perform_all ops s)) = formatter (adapter s) /\
  huggingface_repo_to_llama_model_id (adapter (perform_all ops s))
    = huggingface_repo_to_llama_model_id (adapter s).
Proof.
  unfold perform_all. revert s.
  induction ops as [| op ops IH]; intros s; simpl; [repeat split |].
  destruct (IH (perform op s)) as (Hc & Hf & Ht).
  destruct (perform_step op s) as (Hc' & Hf' & Ht' & _).
  rewrite Hc, Hf, Ht. repeat split; assumption.
Qed.

(** X14.  The registry is read-only for the life of the adapter: no
    sequence of method calls, with whatever arguments and whatever the
    backend answers, changes the configuration, the formatter or the table
    built at construction. *)
Theorem registry_is_read_only (ops : list Op) (s : Sys) :
  config (adapter (perform_all ops s)) = config (adapter s) /\
  formatter (adapter (perform_all ops s)) = formatter (adapter s) /\
  huggingface_repo_to_llama_model_id (adapter (perform_all ops s))
    = huggingface_repo_to_llama_model_id (adapter s).
Proof.
  unfold perform_all. revert s.
  induction ops as [| op ops IH]; intros s; simpl; [repeat split |].
  destruct (IH (perform op s)) as (Hc & Hf & Ht).
  destruct (perform_step op s) as (Hc' & Hf' & Ht' & _).
  split; [congruence |]. split; congruence.
Qed.

(** X15.  An adapter that has no client and is not initialized on the
    way never reaches the backend: after any sequence of method calls
    without [initialize()], streams pulled included, the call log is what
    it was and the client is still [None]. *)
Theorem no_backend_call_before_initialize (ops : list Op) (s : Sys) :
  client (adapter s) = None ->
  Forall (fun op => is_initialize op = false) ops ->
  calls (perform_all ops s) = calls s /\
  client (adapter (perform_all ops s)) = None.
Proof.
  unfold perform_all. revert s.
  induction ops as [| op ops IH]; intros s Hclient Hops; simpl;
    [split; [reflexivity | exact Hclient] |].
  apply Forall_cons in Hops as [Hop Hops].
  destruct (perform_step op s) as (_ & _ & _ & Hcl & Hcalls).
  rewrite Hop, Hclient in Hcl.
  destruct (IH (perform op s) Hcl Hops) as (Hlog & Hnone).
  split; [| exact Hnone].
  rewrite Hlog.
  destruct Hcalls as [Hsame | (cl & call & Hsome & _)];
    [exact Hsame | congruence].
Qed.

Lemma client_kept (ops : list Op) (s : Sys) (cl : OpenAI) :
  client (adapter s) = Some cl ->
  cl = client_of (config (adapter s)) ->
  client (adapter (perform_all ops s)) = Some cl.
Proof.
  unfold perform_all. revert s.
  induction ops as [| op ops IH]; intros s Hclient Hcl; simpl;
    [exact Hclient |].
  destruct (perform_step op s) as (Hc & _ & _ & Hnew & _).
  apply IH.
  - rewrite Hnew. destruct (is_initialize op); [congruence | exact Hclient].
  - rewrite Hc. exact Hcl.
Qed.

(** X16.  Once [initialize()] has been called the adapter stays bound to
    the configured client: after any sequence of method calls that has an
    [initialize()] in it, whatever comes before and after, [shutdown()]
    included, the client is the one made from the configuration. *)
Theorem client_stays_bound (before after : list Op) (s : Sys) :
  client (adapter (perform_all (before ++ DoInitialize :: after) s))
  = Some (client_of (config (adapter s))).
Proof.
  unfold perform_all. rewrite fold_left_app. simpl.
  fold (perform_all before s).
  set (s1 := perform_all before s).
  destruct (perform_all_frame before s) as (Hcfg & _).
  fold (perform_all after (snd (initialize s1))).
  fold s1 in Hcfg. rewrite <- Hcfg. apply client_kept; reflexivity.
Qed.

(** X17.  Every call that reaches the backend goes through the client
    made from the adapter's configuration: after any sequence of method
    calls on a newly constructed adapter, each entry of the call log was
    made through that client. *)
Theorem calls_go_through_configured_client (cfg : VLLMInferenceAdapterConfig)
    (ops : list Op) :
  Forall (fun call => call_client call = client_of cfg)
         (calls (perform_all ops (new_system cfg))).
Proof.
  assert (Hinv : forall ops s,
    config (adapter s) = cfg ->
    (client (adapter s) = None \/ client (adapter s) = Some (client_of cfg)) ->
    Forall (fun call => call_client call = client_of cfg) (calls s) ->
    Forall (fun call => call_client call = client_of cfg)
           (calls (perform_all ops s))).
  { unfold perform_all. clear ops.
    induction ops as [| op ops IH]; intros s Hcfg Hclient Hlog; simpl;
      [exact Hlog |].
    destruct (perform_step op s) as (Hc & _ & _ & Hnew & Hcalls).
    apply IH.
    - congruence.
    - rewrite Hnew. destruct (is_initialize op).
      + right. rewrite Hcfg. reflexivity.
      + exact Hclient.
    - destruct Hcalls as [-> | (cl & call & Hsome & Hcall & ->)];
        [exact Hlog |].
      apply Forall_app. split; [exact Hlog |].
      apply Forall_cons. split; [| apply Forall_nil; exact I].
      destruct Hclient as [Hnone | Hbound]; congruence. }
  apply Hinv.
  - reflexivity.
  - left. reflexivity.
  - apply Forall_nil. exact I.
Qed.

(** X18.  The adapter does not retry and does not call ahead: a sequence
    of method calls only appends to the backend's call log, and appends no
    more entries than there are method calls. *)
Theorem at_most_one_call_per_operation (ops : list Op) (s : Sys) :
  exists extra,
    calls (perform_all ops s) = calls s ++ extra /\
    length extra <= length ops.
Proof.
  unfold perform_all. revert s.
  induction ops as [| op ops IH]; intros s; simpl.
  - exists []. split; [rewrite app_nil_r; reflexivity | reflexivity].
  - destruct (IH (perform op s)) as (extra & Hlog & Hlen).
    destruct (perform_step op s) as (_ & _ & _ & _ & Hcalls).
    destruct Hcalls as [Hsame | (cl & call & _ & _ & Hone)].
    + exists extra. rewrite Hlog, Hsame. split; [reflexivity | lia].
    + exists (call :: extra). rewrite Hlog, Hone, <- app_assoc.
      split; [reflexivity | simpl; lia].
Qed.

End Lifecycle.

(** ** The properties on the fabricated catalogue and backend *)

Import Fabricated.

Lemma catalogue_unique : unique_backend_repo catalogue.
Proof.
  intros m1 m2 H1 H2 Heq. simpl in H1, H2.
  destruct H1 as [<- | [<- | [<- | []]]];
    destruct H2 as [<- | [<- | [<- | []]]];
    simpl in Heq; try reflexivity; discriminate.
Qed.

(** The round trip of ["llama3-8b"] through ["org/llama-3-8b"]. *)
Lemma registry_round_trip_llama3_8b :
  resolve_backend_id "llama3-8b" = inr (Some "org/llama-3-8b") /\
  resolve_canonical_id (__init__ cfg) "org/llama-3-8b" = Some "llama3-8b".
Proof.
  apply (registry_round_trip cfg "llama3-8b"
           {| descriptor := "llama3-8b";
              huggingface_repo := Some "org/llama-3-8b" |}
           "org/llama-3-8b").
  - exact catalogue_unique.
  - left. reflexivity.
  - reflexivity.
  - reflexivity.
  - discriminate.
  - reflexivity.
Defined.

(** A request without sampling parameters gets the configured 4096, and
    one that asks for 100 tokens gets 100. *)
Lemma default_max_tokens_applied :
  (exists params,
     _get_params (adapter ready)
       (build_request "llama3-8b" hi None None None None None (Some false) None)
       = inr params /\
     params !! "max_tokens" = Some (PyInt 4096)) /\
  (exists params,
     _get_params (adapter ready)
       (build_request "llama3-8b" hi (Some (Some 100%Z)) None None None None
                      (Some false) None)
       = inr params /\
     params !! "max_tokens" = Some (PyInt 100)).
Proof.
  split.
  - eexists. split; [reflexivity |].
    refine (proj1 (default_max_tokens (adapter ready)
                     (build_request "llama3-8b" hi None None None None None
                                    (Some false) None) _ _) _).
    + reflexivity.
    + reflexivity.
  - eexists. split; [reflexivity |].
    refine (proj2 (default_max_tokens (adapter ready)
                     (build_request "llama3-8b" hi (Some (Some 100%Z)) None
                                    None None None (Some false) None) _ _)
                  (PyInt 100) _).
    + reflexivity.
    + reflexivity.
Defined.

(** An unknown model with [stream] true: the generator raises at once. *)
Lemma unknown_model_fails_first_streaming :
  exists g,
    chat_completion "no-such-model" hi None None None None None (Some true)
                    None ready
      = (inr (Streaming g), ready) /\
    async_for g ready
      = (([], Some (ValueError "Unknown model: no-such-model")), ready).
Proof.
  destruct (unknown_model_fails_first ready "no-such-model" hi None None None
              None None (Some true) None) as (_ & _ & Hstream).
  - reflexivity.
  - destruct (Hstream eq_refl) as (g & Hcall & Hpull).
    exists g. split; [exact Hcall | apply Hpull].
Defined.

(** The non-streaming example of the design: ["llama3-8b"], one user
    message, one call, one response. *)
Lemma nonstream_hi_one_call :
  fst (chat_completion "llama3-8b" hi None None None None None (Some false)
                       None ready)
    = inr (Response "hello") /\
  length (calls (snd (chat_completion "llama3-8b" hi None None None None None
                                      (Some false) None ready))) = 1%nat.
Proof.
  destruct (nonstream_one_response_one_call ready handle
              {| descriptor := "llama3-8b";
                 huggingface_repo := Some "org/llama-3-8b" |}
              "llama3-8b" hi None None None None None (Some false) None)
    as (params & _ & _ & Hcalls & Hresp).
  - reflexivity.
  - reflexivity.
  - reflexivity.
  - split.
    + apply (Hresp reply "hello"); reflexivity.
    + rewrite Hcalls. reflexivity.
Defined.

(** The listing example of the design: of ["org/llama-3-8b"] and
    ["org/unknown-model"] only the first is known, and one descriptor comes
    back, for ["llama3-8b"]. *)
Lemma list_models_one_known :
  fst (list_models ready)
    = inr [ {| identifier := "llama3-8b"; llama_model := "llama3-8b" |} ] /\
  stdout (snd (list_models ready))
    = ["Unknown model served by vllm: org/unknown-model"].
Proof.
  destruct (list_models_maps_known ready handle served) as (Hrun & _).
  - reflexivity.
  - reflexivity.
  - rewrite Hrun. split; vm_compute; reflexivity.
Defined.

(** The operations on the adapter that was never initialized. *)
Lemma uninitialized_fresh :
  list_models fresh
    = (inl (AttributeError "'NoneType' object has no attribute 'models'"),
       fresh) /\
  chat_completion "llama3-8b" hi None None None None None (Some false) None
                  fresh
    = (inl (AttributeError "'NoneType' object has no attribute 'completions'"),
       fresh).
Proof.
  destruct (uninitialized_operations fresh "llama3-8b" hi None None None None
              None (Some false) None) as (Hlist & _ & _ & Hcall & _).
  - reflexivity.
  - split; [exact Hlist | exact (Hcall eq_refl)].
Defined.

(** The three chunks of the fabricated completion, streamed. *)
Lemma stream_hello :
  exists g,
    chat_completion "llama3-8b" hi None None None None None (Some true) None
                    ready
      = (inr (Streaming g), ready) /\
    fst (async_for g ready)
      = ([ {| delta := "he"; marker := InProgress |};
           {| delta := "llo"; marker := InProgress |};
           {| delta := ""; marker := Terminal EndOfTurn |} ], None).
Proof.
  destruct (stream_ends_in_one_terminal ready handle
              {| descriptor := "llama3-8b";
                 huggingface_repo := Some "org/llama-3-8b" |}
              "llama3-8b" hi None None None None None (Some true) None)
    as (g & params & Hcall & _ & Hpull).
  - reflexivity.
  - reflexivity.
  - reflexivity.
  - reflexivity.
  - exists g. split; [exact Hcall |].
    destruct (Hpull reply (snd reply)) as (Hrun & _).
    + reflexivity.
    + reflexivity.
    + rewrite Hrun. reflexivity.
Defined.

(** C3, at a request the claim covers and the code refuses: [stream] is
    true, the model does not resolve, and the sequence produced is empty,
    ended by the unknown-model error; it has no terminal last element. *)
Lemma stream_unknown_model_is_empty :
  exists g,
    chat_completion "no-such-model" hi None None None None None (Some true)
                    None ready
      = (inr (Streaming g), ready) /\
    async_for g ready
      = (([], Some (ValueError "Unknown model: no-such-model")), ready) /\
    ~ well_terminated (fst (fst (async_for g ready))).
Proof.
  eexists. split; [reflexivity |]. split; [reflexivity |].
  simpl. intros Hwell. exact (well_terminated_nonempty [] Hwell eq_refl).
Qed.

(** C7, on the adapter that was never initialized: a request for a model
    that does not resolve fails with the unknown-model error, and
    [list_models] with an [AttributeError]; neither is a not-initialized
    error. *)
Lemma uninitialized_is_not_reported :
  client (adapter fresh) = None /\
  (exists e,
     fst (chat_completion "no-such-model" hi None None None None None
                          (Some false) None fresh) = inl e /\
     error_kind e = Some UnknownModel /\
     error_kind e <> Some NotInitialized) /\
  (exists e,
     fst (list_models fresh) = inl e /\
     error_kind e <> Some NotInitialized).
Proof.
  split; [reflexivity |]. split.
  - eexists. split; [reflexivity |]. split; [reflexivity | discriminate].
  - eexists. split; [reflexivity | discriminate].
Qed.

(** C9, after [initialize()] and then [shutdown()]: the adapter still
    holds the client handle that [initialize()] bound. *)
Lemma shutdown_keeps_client :
  client (adapter ready) = Some handle /\
  client (adapter (snd (shutdown ready))) = Some handle /\
  client (adapter (snd (shutdown ready))) <> None.
Proof.
  split; [reflexivity |]. split; [reflexivity | discriminate].
Qed.

(** ** The further properties on the fabricated instances *)

(** Of the two models of ["org/llama-3-405b"] the later one is kept. *)
Lemma shared_repository_last_wins :
  repo_table Unreachable.shared !! "org/llama-3-405b"
  = Some "llama3-405b:mp16".
Proof.
  apply (repo_table_last_wins
           [ {| descriptor := "llama3-8b";
                huggingface_repo := Some "org/llama-3-8b" |};
             {| descriptor := "llama3-405b";
                huggingface_repo := Some "org/llama-3-405b" |} ]
           [ {| descriptor := "llama3-draft"; huggingface_repo := None |} ]
           {| descriptor := "llama3-405b:mp16";
              huggingface_repo := Some "org/llama-3-405b" |}
           "org/llama-3-405b").
  - reflexivity.
  - discriminate.
  - intros m' [<- | []]. discriminate.
Defined.

(** The bound of 100 tokens that the request asks for goes through. *)
Lemma explicit_bound_passes_through :
  exists params,
    _get_params (adapter ready)
      (build_request "llama3-8b" hi (Some (Some 100%Z)) None None None None
                     (Some false) None)
      = inr params /\
    params !! "max_tokens" = Some (PyInt 100).
Proof.
  eexists. split; [reflexivity |].
  apply (sampling_options_pass_through (adapter ready)
           (build_request "llama3-8b" hi (Some (Some 100%Z)) None None None
                          None (Some false) None)).
  - reflexivity.
  - reflexivity.
Defined.

(** The translator example of the design: ["llama3-8b"] goes to
    ["org/llama-3-8b"], the prompt holds the message, the stream flag is
    passed on. *)
Lemma hi_parameters :
  exists params,
    _get_params (adapter ready)
      (build_request "llama3-8b" hi None None None None None (Some false) None)
      = inr params /\
    params !! "model" = Some (PyStr "org/llama-3-8b") /\
    params !! "prompt" = Some (PyStr "hi") /\
    params !! "stream" = Some (PyBool false).
Proof.
  eexists. split; [reflexivity |].
  edestruct (fixed_parameters (adapter ready)
               (build_request "llama3-8b" hi None None None None None
                              (Some false) None)
               {| descriptor := "llama3-8b";
                  huggingface_repo := Some "org/llama-3-8b" |})
    as (Hmodel & Hprompt & Hstream); [reflexivity | reflexivity |].
  split; [apply Hmodel; reflexivity |].
  split; [apply Hprompt; reflexivity | apply Hstream; reflexivity].
Defined.

(** The parameters of that request have a prompt and have no temperature. *)
Lemma hi_parameter_keys :
  exists params,
    _get_params (adapter ready)
      (build_request "llama3-8b" hi None None None None None (Some false) None)
      = inr params /\
    is_Some (params !! "prompt") /\
    params !! "temperature" = None.
Proof.
  eexists. split; [reflexivity |]. split.
  - eapply (parameter_keys (adapter ready)
              (build_request "llama3-8b" hi None None None None None
                             (Some false) None) _ "prompt").
    + reflexivity.
    + right. unfold fixed_keys. apply elem_of_cons. right.
      apply elem_of_cons. left. reflexivity.
  - apply eq_None_not_Some. intros Hsome.
    eapply (parameter_keys (adapter ready)
              (build_request "llama3-8b" hi None None None None None
                             (Some false) None) _ "temperature") in Hsome;
      [| reflexivity].
    destruct Hsome as [[v Hv] | Hfixed].
    + discriminate.
    + unfold fixed_keys in Hfixed.
      repeat (apply elem_of_cons in Hfixed as [Heq | Hfixed];
              [discriminate |]).
      apply elem_of_nil in Hfixed. exact Hfixed.
Defined.

(** With the backend out of reach, the non-streaming call raises the
    connection error after its one call. *)
Lemma unreachable_chat_fails :
  fst (@chat_completion api Unreachable.collaborators
         "llama3-8b" hi None None None None None (Some false) None
         Unreachable.ready)
    = inl Unreachable.connection_error /\
  length (calls (snd (@chat_completion api Unreachable.collaborators
                        "llama3-8b" hi None None None None None (Some false)
                        None Unreachable.ready))) = 1%nat.
Proof.
  destruct (@nonstream_failures_propagate api Unreachable.collaborators
              Unreachable.ready handle
              {| descriptor := "llama3-8b";
                 huggingface_repo := Some "org/llama-3-8b" |}
              "llama3-8b" hi None None None None None (Some false) None)
    as (params & _ & Hraise & _); [reflexivity | reflexivity | reflexivity |].
  rewrite (Hraise Unreachable.connection_error eq_refl).
  split; reflexivity.
Defined.

(** With the backend out of reach, the listing raises the connection
    error and prints nothing. *)
Lemma unreachable_listing_fails :
  @list_models api Unreachable.collaborators Unreachable.ready
  = (inl Unreachable.connection_error,
     record_call (ModelsList handle) Unreachable.ready).
Proof.
  apply (@list_models_failure_propagates api Unreachable.collaborators
           Unreachable.ready handle Unreachable.connection_error).
  - reflexivity.
  - reflexivity.
Defined.

(** Two identifiers reported: one descriptor, for the known one, and one
    printed line, for the other. *)
Lemma served_accounted :
  exists models printed s',
    list_models ready = (inr models, s') /\
    stdout s' = stdout ready ++ printed /\
    identifier <$> models = ["llama3-8b"] /\
    printed = ["Unknown model served by vllm: org/unknown-model"] /\
    length models + length printed = 2%nat.
Proof.
  destruct (list_models_accounts_for_all ready handle served)
    as (models & printed & s' & Hrun & Hout & Hids & _ & Hprinted & _ & Hsum);
    [reflexivity | reflexivity |].
  exists models, printed, s'.
  split; [exact Hrun |]. split; [exact Hout |].
  split; [rewrite Hids; vm_compute; reflexivity |].
  split; [rewrite Hprinted; vm_compute; reflexivity | exact Hsum].
Defined.

(** What is listed for the fabricated backend names catalogue models. *)
Lemma served_names_catalogue_models :
  exists models s',
    list_models ready = (inr models, s') /\
    forall d,
      d ∈ models ->
      exists m repo,
        In m catalogue /\
        repo ∈ served /\
        huggingface_repo m = Some repo /\
        descriptor m = identifier d.
Proof.
  destruct (list_models_names_catalogue_models ready handle served)
    as (models & s' & Hrun & Hnames);
    [reflexivity | reflexivity | reflexivity |].
  exists models, s'. split; [exact Hrun | exact Hnames].
Defined.

(** A generator made before [initialize()] and pulled after it. *)
Lemma early_generator_has_no_client :
  exists g,
    chat_completion "llama3-8b" hi None None None None None (Some true) None
                    fresh
      = (inr (Streaming g), fresh) /\
    async_for g ready
    = (([], Some (AttributeError
                    "'NoneType' object has no attribute 'completions'")),
       ready).
Proof.
  destruct (generator_keeps_its_client fresh
              {| descriptor := "llama3-8b";
                 huggingface_repo := Some "org/llama-3-8b" |}
              "llama3-8b" hi None None None None None (Some true) None)
    as (g & Hcall & _ & Hpull); [reflexivity | reflexivity | reflexivity |].
  exists g. split; [exact Hcall |].
  unfold ready. rewrite Hpull. reflexivity.
Defined.

(** The streaming call on the fabricated backend: one call. *)
Lemma stream_hello_one_call :
  exists g,
    chat_completion "llama3-8b" hi None None None None None (Some true) None
                    ready
      = (inr (Streaming g), ready) /\
    length (calls (snd (async_for g ready))) = 1%nat.
Proof.
  destruct (stream_one_call ready handle
              {| descriptor := "llama3-8b";
                 huggingface_repo := Some "org/llama-3-8b" |}
              "llama3-8b" hi None None None None None (Some true) None)
    as (g & params & Hcall & _ & Hlog & _);
    [reflexivity | reflexivity | reflexivity |].
  exists g. split; [exact Hcall |].
  rewrite Hlog. reflexivity.
Defined.

(** A listing, a streamed chat and a shutdown on the adapter that was
    never initialized: the backend has seen nothing. *)
Lemma fresh_never_calls :
  calls (perform_all
           [ DoListModels;
             DoChatCompletion "llama3-8b" hi None None None None None
                              (Some true) None;
             DoShutdown ] fresh) = [] /\
  client (adapter (perform_all
           [ DoListModels;
             DoChatCompletion "llama3-8b" hi None None None None None
                              (Some true) None;
             DoShutdown ] fresh)) = None.
Proof.
  apply (no_backend_call_before_initialize
           [ DoListModels;
             DoChatCompletion "llama3-8b" hi None None None None None
                              (Some true) None;
             DoShutdown ] fresh).
  - reflexivity.
  - repeat constructor.
Defined.

(** The catalogue's draft model has no repository and is sent as [None]. *)
Lemma draft_is_sent_as_none :
  exists params,
    calls (snd (chat_completion "llama3-draft" hi None None None None None
                                (Some false) None ready))
      = [CompletionsCreate handle params] /\
    params !! "model" = Some PyNone.
Proof.
  destruct (model_without_repository_is_sent_as_none ready handle
              {| descriptor := "llama3-draft"; huggingface_repo := None |}
              "llama3-draft" hi None None None None None (Some false) None)
    as (params & Hlog & Hmodel);
    [reflexivity | reflexivity | reflexivity | reflexivity | reflexivity |].
  exists params. split; [exact Hlog | exact Hmodel].
Defined.

(** C2, in the catalogue with a shared repository: ["llama3-405b"]
    resolves to its own model, whose repository is
    ["org/llama-3-405b"], and the table gives that repository to
    ["llama3-405b:mp16"], the later model of the two that name it; the
    identifier does not come back. *)
Lemma shared_repository_breaks_round_trip :
  @resolve_model api Shared.collaborators "llama3-405b"
    = Some Shared.llama3_405b /\
  In Shared.llama3_405b (@all_registered_models api Shared.collaborators) /\
  @resolve_backend_id api Shared.collaborators "llama3-405b"
    = inr (Some "org/llama-3-405b") /\
  @resolve_canonical_id api
     (@__init__ api Shared.collaborators cfg) "org/llama-3-405b"
    = Some "llama3-405b:mp16" /\
  @resolve_canonical_id api
     (@__init__ api Shared.collaborators cfg) "org/llama-3-405b"
    <> Some "llama3-405b".
Proof.
  split; [reflexivity |].
  split; [right; left; reflexivity |].
  split; [reflexivity |].
  split; [reflexivity | discriminate].
Qed.

(** In that catalogue ["llama3-8b"], whose repository no other model
    names, comes back, and ["llama3-405b"] comes back as the later
    variant. *)
Lemma shared_catalogue_round_trips :
  (@resolve_backend_id api Shared.collaborators "llama3-8b"
     = inr (Some "org/llama-3-8b") /\
   @resolve_canonical_id api
      (@__init__ api Shared.collaborators cfg) "org/llama-3-8b"
     = Some "llama3-8b") /\
  (@resolve_backend_id api Shared.collaborators "llama3-405b"
     = inr (Some "org/llama-3-405b") /\
   @resolve_canonical_id api
      (@__init__ api Shared.collaborators cfg) "org/llama-3-405b"
     = Some "llama3-405b:mp16").
Proof.
  split.
  - destruct (@registry_round_trip_last_wins api Shared.collaborators cfg
                "llama3-8b" Shared.llama3_8b "org/llama-3-8b"
                []
                [Shared.llama3_405b; Shared.llama3_405b_mp16;
                 Shared.llama3_draft]
                Shared.llama3_8b) as (Hback & Htable & _).
    + reflexivity.
    + reflexivity.
    + discriminate.
    + reflexivity.
    + reflexivity.
    + intros m' [<- | [<- | [<- | []]]]; discriminate.
    + split; [exact Hback | exact Htable].
  - destruct (@registry_round_trip_last_wins api Shared.collaborators cfg
                "llama3-405b" Shared.llama3_405b "org/llama-3-405b"
                [Shared.llama3_8b; Shared.llama3_405b]
                [Shared.llama3_draft]
                Shared.llama3_405b_mp16) as (Hback & Htable & _).
    + reflexivity.
    + reflexivity.
    + discriminate.
    + reflexivity.
    + reflexivity.
    + intros m' [<- | []]. discriminate.
    + split; [exact Hback | exact Htable].
Defined.
